(** * Fama-MacBeth two-pass estimation: a shallow embedding of the notebook

    The notebook simulates a panel of returns (cell 3), estimates one beta
    per asset by a time-series regression (first loop), estimates one risk
    premium per period by a cross-sectional regression on those betas
    (second loop) and summarises the premia (mean, standard error, t score,
    p-value).

    The notebook's own code is translated cell by cell.  The two histogram
    cells, the prints and [np.mean(mkt)] bind no variable and are left
    out; the cells that can raise are all there.  What the notebook calls
    from numpy, scikit-learn, pandas and scipy is kept behind interfaces:
    - [Float64]: the float64 arithmetic of Python and numpy, and the
      reductions of a column (sum, minimum, maximum, quantile);
    - [RandomState]: numpy's global generator, one standard normal draw at
      a time;
    - [Sklearn]: [LinearRegression(...).fit(X, y)];
    - [Scipy]: [scipy.stats.t.sf].
    Every theorem holds for all implementations of these interfaces; a
    term model of them is given, on which the cells can be run. *)

From Stdlib Require Import String QArith ZArith Bool Arith List Lia.
Import ListNotations.
Close Scope Q_scope.
Close Scope Z_scope.
Open Scope string_scope.
Open Scope list_scope.
Open Scope nat_scope.

Set Implicit Arguments.

(** ** Python exceptions *)

Inductive exn : Type :=
| ValueError (msg : string)
| IndexError (msg : string).

Inductive result (A : Type) : Type :=
| Ok (a : A)
| Raise (e : exn).

Arguments Ok {A} a.
Arguments Raise {A} e.

Definition bind {A B : Type} (c : result A) (k : A -> result B) : result B :=
  match c with
  | Ok a => k a
  | Raise e => Raise e
  end.

Declare Scope py_scope.
Delimit Scope py_scope with py.
Notation "x <- c ;; k" := (bind c (fun x => k))
  (at level 61, c at next level, right associativity) : py_scope.
Open Scope py_scope.

(** [for i in idx: st = body(i, st)]; an exception leaves the loop. *)
Fixpoint for_each {S : Type} (body : nat -> S -> result S)
         (idx : list nat) (st : S) : result S :=
  match idx with
  | [] => Ok st
  | i :: rest =>
      match body i st with
      | Ok st' => for_each body rest st'
      | Raise e => Raise e
      end
  end.

(** [range(n)] for a Python int: empty when [n <= 0]. *)
Definition range (n : Z) : list nat := seq 0 (Z.to_nat n).

(** [xs[i]] on a sequence. *)
Definition getitem {A : Type} (xs : list A) (i : nat) : result A :=
  match nth_error xs i with
  | Some x => Ok x
  | None => Raise (IndexError "index out of range")
  end.

(** ** float64 *)

Class Float64 (F : Type) : Type := {
  flit : Q -> F;                (* a literal such as [0.01] *)
  of_int : Z -> F;              (* int to float *)
  fadd : F -> F -> F;
  fsub : F -> F -> F;
  fmul : F -> F -> F;
  fdiv : F -> F -> F;
  fsqrt : F -> F;               (* np.sqrt *)
  fsum : list F -> F;           (* the sum reduction of an array *)
  fmin : list F -> F;           (* the minimum of a column *)
  fmax : list F -> F;           (* the maximum of a column *)
  fquantile : Q -> list F -> F  (* the quantile of a column, as pandas
                                   interpolates it *)
}.

(** ** Two-dimensional arrays

    A numpy array of shape [(nrows, ncols)], stored row by row.  The shape
    is kept beside the rows because an array can have no row and still have
    columns (and the other way round). *)

Section Arrays.
Context {F : Type}.

Record ndarray : Type := mk_ndarray {
  nrows : nat;
  ncols : nat;
  rows : list (list F)
}.

Definition wf (A : ndarray) : Prop :=
  length (rows A) = nrows A /\
  Forall (fun r => length r = ncols A) (rows A).

Definition column_values (rs : list (list F)) (j : nat) : list F :=
  flat_map (fun r => match nth_error r j with
                     | Some x => [x]
                     | None => []
                     end) rs.

(** [A[:, j]] *)
Definition get_col (A : ndarray) (j : nat) : result (list F) :=
  if j <? ncols A then Ok (column_values (rows A) j)
  else Raise (IndexError "index is out of bounds for axis 1").

(** [A[i, :]] *)
Definition get_row (A : ndarray) (i : nat) : result (list F) :=
  if i <? nrows A then getitem (rows A) i
  else Raise (IndexError "index is out of bounds for axis 0").

(** [np.transpose(A)] *)
Definition np_transpose (A : ndarray) : ndarray :=
  {| nrows := ncols A;
     ncols := nrows A;
     rows := map (column_values (rows A)) (seq 0 (ncols A)) |}.

(** [np.array(b).reshape(-1, 1)] for a list of scalars. *)
Definition reshape_column (b : list F) : ndarray :=
  {| nrows := length b; ncols := 1; rows := map (fun x => [x]) b |}.

(** [c + A], [c * A] with a scalar on the left. *)
Definition scalar_op (op : F -> F -> F) (c : F) (A : ndarray) : ndarray :=
  {| nrows := nrows A; ncols := ncols A;
     rows := map (map (op c)) (rows A) |}.

(** numpy's broadcasting rule along one axis. *)
Definition broadcast_dim (a b : nat) : option nat :=
  if a =? b then Some a
  else if a =? 1 then Some b
  else if b =? 1 then Some a
  else None.

Definition stretch {X : Type} (n : nat) (xs : list X) : list X :=
  match xs with
  | [x] => repeat x n
  | _ => xs
  end.

Definition broadcast_to (r c : nat) (A : ndarray) : list (list F) :=
  let rs := if ncols A =? 1 then map (stretch c) (rows A) else rows A in
  if nrows A =? 1 then stretch r rs else rs.

Fixpoint zip_with (op : F -> F -> F) (xs ys : list F) : list F :=
  match xs, ys with
  | x :: xs', y :: ys' => op x y :: zip_with op xs' ys'
  | _, _ => []
  end.

Fixpoint zip_rows (op : F -> F -> F) (xs ys : list (list F))
  : list (list F) :=
  match xs, ys with
  | x :: xs', y :: ys' => zip_with op x y :: zip_rows op xs' ys'
  | _, _ => []
  end.

(** [A + B], [A * B] on arrays. *)
Definition array_op (op : F -> F -> F) (A B : ndarray) : result ndarray :=
  match broadcast_dim (nrows A) (nrows B),
        broadcast_dim (ncols A) (ncols B) with
  | Some r, Some c =>
      Ok {| nrows := r; ncols := c;
            rows := zip_rows op (broadcast_to r c A) (broadcast_to r c B) |}
  | _, _ => Raise (ValueError "operands could not be broadcast together")
  end.

End Arrays.

Arguments ndarray F : clear implicits.

(** ** numpy's global random generator

    [G] is the state of [np.random]; [gauss] makes one standard normal draw
    and moves the state on.  A cell that draws is a function of the state
    that returns the new state beside its result. *)

Class RandomState (F G : Type) : Type := {
  rng_seed : Z -> G;
  gauss : G -> F * G
}.

Definition M (G A : Type) : Type := G -> result A * G.

Definition ret {G A : Type} (a : A) : M G A := fun g => (Ok a, g).

Definition lift {G A : Type} (c : result A) : M G A := fun g => (c, g).

Definition bindM {G A B : Type} (c : M G A) (k : A -> M G B) : M G B :=
  fun g => match c g with
           | (Ok a, g') => k a g'
           | (Raise e, g') => (Raise e, g')
           end.

Declare Scope rng_scope.
Delimit Scope rng_scope with rng.
Notation "x <~ c ;; k" := (bindM c (fun x => k))
  (at level 61, c at next level, right associativity) : rng_scope.
Open Scope rng_scope.

Section Simulator.
Context {F G : Type} {FO : Float64 F} {RS : RandomState F G}.

(** [np.random.seed(seed)] *)
Definition np_random_seed (seed : Z) : M G unit :=
  fun _ => (Ok tt, rng_seed seed).

Fixpoint draw_list (n : nat) (g : G) : list F * G :=
  match n with
  | O => ([], g)
  | S n' =>
      let (z, g1) := gauss g in
      let (zs, g2) := draw_list n' g1 in
      (z :: zs, g2)
  end.

Fixpoint draw_rows (r c : nat) (g : G) : list (list F) * G :=
  match r with
  | O => ([], g)
  | S r' =>
      let (row, g1) := draw_list c g in
      let (rest, g2) := draw_rows r' c g1 in
      (row :: rest, g2)
  end.

(** [np.random.standard_normal((r, c))]: the array is filled row by row. *)
Definition standard_normal (shape : Z * Z) : M G (ndarray F) :=
  fun g =>
    let (r, c) := shape in
    if ((r <? 0) || (c <? 0))%Z
    then (Raise (ValueError "negative dimensions are not allowed"), g)
    else
      let (rs, g') := draw_rows (Z.to_nat r) (Z.to_nat c) g in
      (Ok {| nrows := Z.to_nat r; ncols := Z.to_nat c; rows := rs |}, g').

(** [np.random.normal(loc, scale, (r, c))]: each entry is
    [loc + scale * z] for a fresh standard normal [z]. *)
Definition np_random_normal (loc scale : F) (shape : Z * Z)
  : M G (ndarray F) :=
  z <~ standard_normal shape ;;
  ret (scalar_op fadd loc (scalar_op fmul scale z)).

(** Cell 2: the parameters. *)
Record params : Type := mk_params {
  rf : F;
  N : Z;
  T : Z;
  dt : F;
  s : F
}.

Definition parameters : params :=
  let dt := fdiv (of_int 1) (of_int 252) in
  {| rf := flit (1 # 100);
     N := 2000;
     T := 2520;
     dt := dt;
     s := fsqrt (fmul (flit (5 # 10)) dt) |}.

(** Cell 3: the simulated market. *)
Record market : Type := mk_market {
  beta_true : ndarray F;
  mkt : ndarray F;
  data : ndarray F
}.

Definition simulate (p : params) : M G market :=
  beta_true <~ np_random_normal (of_int 1) (flit (25 # 100)) (N p, 1%Z) ;;
  z <~ standard_normal (T p, 1%Z) ;;
  let mkt := scalar_op fadd (fmul (flit (6 # 100)) (dt p)) z in
  prod <~ lift (array_op fmul (np_transpose beta_true) mkt) ;;
  eps <~ standard_normal (T p, N p) ;;
  data <~ lift (array_op fadd (scalar_op fadd (fmul (rf p) (dt p)) prod)
                              (scalar_op fmul (s p) eps)) ;;
  ret {| beta_true := beta_true; mkt := mkt; data := data |}.

(** Cells 1 and 3 in a row: one run of the simulator. *)
Definition run_simulator (seed : Z) (p : params) : M G market :=
  _ <~ np_random_seed seed ;;
  simulate p.

End Simulator.

Arguments params F : clear implicits.
Arguments market F : clear implicits.

(** ** scikit-learn's linear regression *)

(** The estimator object [LinearRegression(fit_intercept=...)]. *)
Record LinearRegression : Type := mk_LinearRegression {
  fit_intercept : bool
}.

(** [LinearRegression()]: the library fits an intercept unless told
    otherwise. *)
Definition LinearRegression_default : LinearRegression :=
  {| fit_intercept := true |}.

(** What a fitted model exposes. *)
Record fitted (F : Type) : Type := mk_fitted {
  coef_ : list F;
  intercept_ : F
}.

Class Sklearn (F : Type) : Type := {
  fit : LinearRegression -> ndarray F -> list F -> result (fitted F)
}.

(** ** scipy.stats.t *)

Class Scipy (F : Type) : Type := {
  t_sf : F -> Z -> F            (* [t.sf(x, df)] *)
}.

(** ** The sanity check (cells 5 and 6)

    [y = data[:, 20]], then a regression of [y] on [mkt]; the cell prints
    the intercept, the estimated beta [model.coef_[0]] and the true beta
    [beta_true[20][0]]. *)

Section SanityCheck.
Context {F : Type} {SK : Sklearn F}.

Record sanity : Type := mk_sanity {
  intercept : F;
  estimated_beta : F;
  true_beta : F
}.

Definition sanity_check (m : market F) : result sanity :=
  y <- get_col (data m) 20 ;;
  model <- fit LinearRegression_default (mkt m) y ;;
  estimated <- getitem (coef_ model) 0 ;;
  row <- get_row (beta_true m) 20 ;;
  tb <- getitem row 0 ;;
  Ok {| intercept := intercept_ model;
        estimated_beta := estimated;
        true_beta := tb |}.

End SanityCheck.

Arguments sanity F : clear implicits.

(** ** The two passes *)

Section Estimators.
Context {F : Type} {FO : Float64 F} {SK : Sklearn F}.

(** The variables of the first loop. *)
Record ts_env : Type := mk_ts_env {
  ts_mkt : ndarray F;
  ts_data : ndarray F;
  ts_y : option (list F);
  ts_model : option (fitted F);
  ts_b : list F
}.

(** The body of [for i in range(N)]. *)
Definition ts_body (i : nat) (e : ts_env) : result ts_env :=
  y <- get_col (ts_data e) i ;;
  model <- fit LinearRegression_default (ts_mkt e) y ;;
  c <- getitem (coef_ model) 0 ;;
  Ok {| ts_mkt := ts_mkt e;
        ts_data := ts_data e;
        ts_y := Some y;
        ts_model := Some model;
        ts_b := ts_b e ++ [c] |}.

(** The variables when the loop starts, after [b = []]. *)
Definition ts_start (mkt data : ndarray F) : ts_env :=
  {| ts_mkt := mkt; ts_data := data;
     ts_y := None; ts_model := None; ts_b := [] |}.

Definition time_series_loop (N : Z) (mkt data : ndarray F) : result ts_env :=
  for_each ts_body (range N) (ts_start mkt data).

(** First pass: one beta per asset. *)
Definition time_series (N : Z) (mkt data : ndarray F) : result (list F) :=
  e <- time_series_loop N mkt data ;;
  Ok (ts_b e).

(** The variables of the second loop; [cs_b] is [b] after
    [b = np.array(b); b = b.reshape(-1, 1)]. *)
Record cs_env : Type := mk_cs_env {
  cs_b : ndarray F;
  cs_data : ndarray F;
  cs_y : option (list F);
  cs_model : option (fitted F);
  cs_res : list F
}.

(** The body of [for i in range(T)]. *)
Definition cs_body (i : nat) (e : cs_env) : result cs_env :=
  y <- get_row (cs_data e) i ;;
  model <- fit LinearRegression_default (cs_b e) y ;;
  c <- getitem (coef_ model) 0 ;;
  Ok {| cs_b := cs_b e;
        cs_data := cs_data e;
        cs_y := Some y;
        cs_model := Some model;
        cs_res := cs_res e ++ [c] |}.

(** The variables when the loop starts, after the two assignments to [b]
    and [res = []]. *)
Definition cs_start (b : list F) (data : ndarray F) : cs_env :=
  {| cs_b := reshape_column b; cs_data := data;
     cs_y := None; cs_model := None; cs_res := [] |}.

Definition cross_section_loop (T : Z) (b : list F) (data : ndarray F)
  : result cs_env :=
  for_each cs_body (range T) (cs_start b data).

(** Second pass: one risk premium per period. *)
Definition cross_section (T : Z) (b : list F) (data : ndarray F)
  : result (list F) :=
  e <- cross_section_loop T b data ;;
  Ok (cs_res e).

End Estimators.

Arguments ts_env F : clear implicits.
Arguments cs_env F : clear implicits.

(** ** Summary statistics *)

Section Summary.
Context {F : Type} {FO : Float64 F} {SP : Scipy F}.

(** [pd.DataFrame(res)] for a list of scalars, as its list of columns:
    one column, and none at all for the empty list. *)
Definition DataFrame (res : list F) : list (list F) :=
  match res with
  | [] => []
  | _ => [res]
  end.

(** pandas' reductions of one column, written with the float operations
    they perform: the mean is the sum over the count. *)
Definition column_mean (xs : list F) : F :=
  fdiv (fsum xs) (of_int (Z.of_nat (length xs))).

(** The variance of a column with [ddof] delta degrees of freedom: the sum
    of the squared deviations from the mean over [count - ddof]. *)
Definition column_var (ddof : Z) (xs : list F) : F :=
  let avg := column_mean xs in
  let sqr := map (fun x => fmul (fsub avg x) (fsub avg x)) xs in
  fdiv (fsum sqr) (of_int (Z.of_nat (length xs) - ddof)).

(** [df.mean()] and [df.std()]: one entry per column; pandas takes
    [ddof = 1] when [std] is called without argument. *)
Definition df_mean (df : list (list F)) : list F := map column_mean df.

Definition df_std (df : list (list F)) : list F :=
  map (fun xs => fsqrt (column_var 1 xs)) df.

(** [df.describe()]: for each column the count, the mean, the standard
    deviation, the minimum, the three quartiles and the maximum; pandas
    refuses a frame without columns. *)
Definition describe_column (xs : list F) : list F :=
  [of_int (Z.of_nat (length xs));
   column_mean xs;
   fsqrt (column_var 1 xs);
   fmin xs;
   fquantile (25 # 100) xs;
   fquantile (50 # 100) xs;
   fquantile (75 # 100) xs;
   fmax xs].

Definition df_describe (df : list (list F)) : result (list (list F)) :=
  match df with
  | [] => Raise (ValueError "Cannot describe a DataFrame without columns")
  | _ => Ok (map describe_column df)
  end.

Record summary_stats : Type := mk_summary_stats {
  mean : list F;
  std : list F;
  se : list F;
  t_score : list F;
  p_value : F
}.

(** [df = pd.DataFrame(res)] and [df.describe()], whose table is shown
    and not kept; then [se = df.std()/np.sqrt(T)],
    [t_score = df.mean()/se], [p_value = t.sf(t_score, T)[0]]. *)
Definition summary (T : Z) (res : list F) : result summary_stats :=
  let df := DataFrame res in
  _ <- df_describe df ;;
  let se := map (fun x => fdiv x (fsqrt (of_int T))) (df_std df) in
  let t_score := zip_with fdiv (df_mean df) se in
  p_value <- getitem (map (fun x => t_sf x T) t_score) 0 ;;
  Ok {| mean := df_mean df;
        std := df_std df;
        se := se;
        t_score := t_score;
        p_value := p_value |}.

End Summary.

Arguments summary_stats F : clear implicits.

(** ** The notebook, cell after cell

    Seeding and the simulation, the sanity check, the two passes, the
    summary.  An exception in one cell ends the run. *)

Section Pipeline.
Context {F G : Type} {FO : Float64 F} {RS : RandomState F G}
        {SK : Sklearn F} {SP : Scipy F}.

Record outputs : Type := mk_outputs {
  out_market : market F;
  out_sanity : sanity F;
  out_b : list F;
  out_res : list F;
  out_summary : summary_stats F
}.

Definition fama_macbeth (seed : Z) (p : params F) : M G outputs :=
  m <~ run_simulator seed p ;;
  sc <~ lift (sanity_check m) ;;
  b <~ lift (time_series (N p) (mkt m) (data m)) ;;
  res <~ lift (cross_section (T p) b (data m)) ;;
  st <~ lift (summary (T p) res) ;;
  ret {| out_market := m; out_sanity := sc;
         out_b := b; out_res := res; out_summary := st |}.

End Pipeline.

Arguments outputs F : clear implicits.

(** ** The closed form of ordinary least squares

    Modelled from the spec: scikit-learn's least-squares solver is not part
    of the notebook; the specification describes the slope of a regression
    with intercept of [ys] on [xs] as [cov(xs, ys) / var(xs)]. *)

Section ClosedForm.
Context {F : Type} {FO : Float64 F}.

Definition deviations (xs : list F) : list F :=
  map (fun x => fsub x (column_mean xs)) xs.

Definition cov (xs ys : list F) : F :=
  fdiv (fsum (zip_with fmul (deviations xs) (deviations ys)))
       (of_int (Z.of_nat (length xs))).

Definition var (xs : list F) : F := cov xs xs.

Definition ols_slope (xs ys : list F) : F := fdiv (cov xs ys) (var xs).

Definition ols_intercept (xs ys : list F) : F :=
  fsub (column_mean ys) (fmul (ols_slope xs ys) (column_mean xs)).

End ClosedForm.

(** ** Vocabulary of the statements *)

Section Vocabulary.
Context {F G : Type} {FO : Float64 F} {RS : RandomState F G}.

(** The generator state after [k] draws, and the [k]-th draw (from 0) of
    the stream that starts in state [g]. *)
Fixpoint advance (k : nat) (g : G) : G :=
  match k with
  | O => g
  | S k' => advance k' (snd (gauss g))
  end.

Definition stream (g : G) (k : nat) : F := fst (gauss (advance k g)).

(** What cell 3 puts in its three arrays, entry by entry, when it starts in
    generator state [g] with [n] assets and [t] periods. *)
Definition sensitivity (g : G) (j : nat) : F :=
  fadd (of_int 1) (fmul (flit (25 # 100)) (stream g j)).

Definition factor (p : params F) (g : G) (n i : nat) : F :=
  fadd (fmul (flit (6 # 100)) (dt p)) (stream g (n + i)).

Definition noise_position (n t i j : nat) : nat := n + t + i * n + j.

Definition noise (g : G) (n t i j : nat) : F :=
  stream g (noise_position n t i j).

Definition panel_cell (p : params F) (g : G) (n t i j : nat) : F :=
  fadd (fadd (fmul (rf p) (dt p))
             (fmul (sensitivity g j) (factor p g n i)))
       (fmul (s p) (noise g n t i j)).

Definition simulated_market (p : params F) (g : G) (n t : nat) : market F :=
  {| beta_true :=
       {| nrows := n; ncols := 1;
          rows := map (fun j => [sensitivity g j]) (seq 0 n) |};
     mkt :=
       {| nrows := t; ncols := 1;
          rows := map (fun i => [factor p g n i]) (seq 0 t) |};
     data :=
       {| nrows := t; ncols := n;
          rows := map (fun i => map (panel_cell p g n t i) (seq 0 n))
                      (seq 0 t) |} |}.

End Vocabulary.

Section SolverVocabulary.
Context {F : Type} {FO : Float64 F}.

(** One regression as both loops run it: fit with the default estimator,
    keep [coef_[0]]. *)
Definition slope_of (SK : Sklearn F) (X : ndarray F) (y : list F)
  : result F :=
  model <- fit LinearRegression_default X y ;;
  getitem (coef_ model) 0.

(** [for i in idx] collecting one value per index; the first exception is
    the result. *)
Fixpoint mapM {A : Type} (f : nat -> result A) (idx : list nat)
  : result (list A) :=
  match idx with
  | [] => Ok []
  | i :: rest =>
      a <- f i ;;
      l <- mapM f rest ;;
      Ok (a :: l)
  end.

(** The regression of asset [j] in the first loop, and of period [i] in
    the second. *)
Definition asset_slope (SK : Sklearn F) (mkt data : ndarray F) (j : nat)
  : result F :=
  y <- get_col data j ;;
  slope_of SK mkt y.

Definition period_slope (SK : Sklearn F) (b data : ndarray F) (i : nat)
  : result F :=
  y <- get_row data i ;;
  slope_of SK b y.

(** A solver is an ordinary-least-squares solver when, on one regressor,
    every fit with intercept it returns has the closed-form slope as its
    only coefficient. *)
Definition ols_solver (SK : Sklearn F) : Prop :=
  forall (X : ndarray F) (y : list F) (m : fitted F),
    ncols X = 1 ->
    fit LinearRegression_default X y = Ok m ->
    coef_ m = [ols_slope (column_values (rows X) 0) y].

(** Two solvers that, for the default estimator, raise the same
    exceptions and return the same first coefficient; their intercepts,
    their other coefficients and what they do without intercept are
    free. *)
Definition same_first_coefficient (SK1 SK2 : Sklearn F) : Prop :=
  forall (X : ndarray F) (y : list F),
    match @fit F SK1 LinearRegression_default X y,
          @fit F SK2 LinearRegression_default X y with
    | Ok m1, Ok m2 => nth_error (coef_ m1) 0 = nth_error (coef_ m2) 0
    | Raise e1, Raise e2 => e1 = e2
    | _, _ => False
    end.

End SolverVocabulary.

(** ** A term model of the libraries

    Numbers are the expressions that compute them: running a cell on terms
    shows the formula behind every entry of its output.  [Normal seed k] is
    the [k]-th standard normal draw after [np.random.seed(seed)]. *)

#[warnings="-register-all"]
Inductive term : Type :=
| Lit (q : Q)
| Int (z : Z)
| Add (a b : term)
| Sub (a b : term)
| Mul (a b : term)
| Div (a b : term)
| Sqrt (a : term)
| Sum (xs : list term)
| Min (xs : list term)
| Max (xs : list term)
| Quantile (q : Q) (xs : list term)
| Normal (seed : Z) (k : nat)
| StudentSf (x : term) (df : Z).

Definition term_float : Float64 term :=
  {| flit := Lit; of_int := Int;
     fadd := Add; fsub := Sub; fmul := Mul; fdiv := Div;
     fsqrt := Sqrt; fsum := Sum;
     fmin := Min; fmax := Max; fquantile := Quantile |}.

Definition term_random : RandomState term (Z * nat) :=
  {| rng_seed := fun seed => (seed, 0);
     gauss := fun g => (Normal (fst g) (snd g), (fst g, S (snd g))) |}.

Definition term_scipy : Scipy term := {| t_sf := StudentSf |}.

(** The exact closed form as a solver, for one regressor.  It is not
    scikit-learn: it returns [cov / var] also where the regressor has no
    variance (one observation, a constant column), which is [0 / 0] where
    the library answers [0.0], and it takes one regressor where the
    library takes several.  Like the library it refuses an empty sample
    and a sample whose two sides differ in length.  It is the solver of
    the contract [ols_solver]. *)
Definition closed_form_fit (lr : LinearRegression) (X : ndarray term)
           (y : list term) : result (fitted term) :=
  if nrows X =? 0
  then Raise (ValueError "Found array with 0 sample(s)")
  else if negb (ncols X =? 1)
  then Raise (ValueError "one regressor expected")
  else if negb (length y =? nrows X)
  then Raise (ValueError "Found input variables with inconsistent numbers of samples")
  else
    let x := column_values (rows X) 0 in
    if fit_intercept lr
    then Ok {| coef_ := [@ols_slope term term_float x y];
               intercept_ := @ols_intercept term term_float x y |}
    else Ok {| coef_ := [Div (Sum (zip_with Mul x y)) (Sum (zip_with Mul x x))];
               intercept_ := Lit 0 |}.

Definition term_sklearn : Sklearn term := {| fit := closed_form_fit |}.

(** The same slopes with another intercept, and no fit at all without
    intercept. *)
Definition other_intercept_fit (lr : LinearRegression) (X : ndarray term)
           (y : list term) : result (fitted term) :=
  if fit_intercept lr
  then m <- closed_form_fit lr X y ;;
       Ok {| coef_ := coef_ m; intercept_ := Int 7 |}
  else Raise (ValueError "not fitted").

Definition term_sklearn' : Sklearn term := {| fit := other_intercept_fit |}.

(** Small inputs on which the cells are run below. *)
Definition tiny (n t : Z) : params term :=
  {| rf := Lit (1 # 100); N := n; T := t;
     dt := Div (Int 1) (Int 252); s := Lit (1 # 20) |}.

Definition one_row : ndarray term :=
  {| nrows := 1; ncols := 1; rows := [[Lit (3 # 100)]] |}.

Definition two_by_two : ndarray term :=
  {| nrows := 2; ncols := 2;
     rows := [[Lit (1 # 100); Lit (2 # 100)]; [Lit (3 # 100); Lit (5 # 100)]] |}.

Definition two_factors : ndarray term :=
  {| nrows := 2; ncols := 1; rows := [[Lit (1 # 10)]; [Lit (2 # 10)]] |}.

Section Acceptance.
Context {F : Type} {SK : Sklearn F}.

(** A solver that returns a fit with a first coefficient whenever it is
    given at least one sample of one regressor and as many observations as
    samples. *)
Definition accepts_samples : Prop :=
  forall (X : ndarray F) (y : list F),
    wf X -> 1 <= nrows X -> ncols X = 1 -> length y = nrows X ->
    exists m c,
      fit LinearRegression_default X y = Ok m /\
      nth_error (coef_ m) 0 = Some c.

End Acceptance.

Arguments accepts_samples {F} SK.

(** A second panel with the first column and the first row of
    [two_by_two]. *)
Definition two_by_two_alt : ndarray term :=
  {| nrows := 2; ncols := 2;
     rows := [[Lit (1 # 100); Lit (2 # 100)]; [Lit (3 # 100); Lit (7 # 100)]] |}.

(** * Properties *)

(** ** Lists and arrays *)

Section ArrayFacts.
Context {F : Type}.

Lemma column_values_singletons (X : Type) (f : X -> F) (l : list X) :
  column_values (map (fun x => [f x]) l) 0 = map f l.
Proof.
  induction l as [|x l IH]; simpl; [reflexivity|].
  now rewrite IH.
Qed.

Lemma column_values_reshape (b : list F) :
  column_values (rows (reshape_column b)) 0 = b.
Proof.
  unfold reshape_column; simpl.
  rewrite (column_values_singletons (fun x => x)).
  apply map_id.
Qed.

Lemma zip_with_map (X : Type) (op : F -> F -> F) (f g : X -> F)
      (l : list X) :
  zip_with op (map f l) (map g l) = map (fun x => op (f x) (g x)) l.
Proof.
  induction l as [|x l IH]; simpl; [reflexivity|].
  now rewrite IH.
Qed.

Lemma zip_rows_map (X : Type) (op : F -> F -> F) (f g : X -> list F)
      (l : list X) :
  zip_rows op (map f l) (map g l) = map (fun x => zip_with op (f x) (g x)) l.
Proof.
  induction l as [|x l IH]; simpl; [reflexivity|].
  now rewrite IH.
Qed.

Lemma repeat_as_map (X : Type) (x : X) (n : nat) :
  repeat x n = map (fun _ => x) (seq 0 n).
Proof.
  rewrite <- (length_seq n 0) at 1.
  induction (seq 0 n) as [|k l IH]; simpl; [reflexivity|].
  now rewrite IH.
Qed.

Lemma broadcast_dim_one_l (n : nat) : broadcast_dim 1 n = Some n.
Proof.
  unfold broadcast_dim.
  destruct (1 =? n) eqn:E; [apply Nat.eqb_eq in E; now subst|reflexivity].
Qed.

Lemma broadcast_dim_one_r (n : nat) : broadcast_dim n 1 = Some n.
Proof.
  unfold broadcast_dim.
  destruct (n =? 1) eqn:E; reflexivity.
Qed.

Lemma broadcast_dim_same (n : nat) : broadcast_dim n n = Some n.
Proof. unfold broadcast_dim. now rewrite Nat.eqb_refl. Qed.

Lemma stretch_one (X : Type) (l : list X) : stretch 1 l = l.
Proof. destruct l as [|x [|y l]]; reflexivity. Qed.

(** An array of the target shape is left as it is. *)
Lemma broadcast_to_same (A : ndarray F) :
  wf A -> broadcast_to (nrows A) (ncols A) A = rows A.
Proof.
  intros [Hlen Hrows]. unfold broadcast_to.
  assert (Hin : (if ncols A =? 1 then map (stretch (ncols A)) (rows A)
                 else rows A) = rows A).
  { destruct (ncols A =? 1) eqn:E; [|reflexivity].
    apply Nat.eqb_eq in E. rewrite E.
    rewrite <- (map_id (rows A)) at 2.
    apply map_ext. intros r. apply stretch_one. }
  rewrite Hin.
  destruct (nrows A =? 1) eqn:E; [|reflexivity].
  apply Nat.eqb_eq in E. rewrite E. apply stretch_one.
Qed.

(** A row vector [(1, n)] against a column vector [(t, 1)]. *)
Lemma broadcast_row (f : nat -> F) (n t : nat) :
  broadcast_to t n {| nrows := 1; ncols := n; rows := [map f (seq 0 n)] |}
  = map (fun _ => map f (seq 0 n)) (seq 0 t).
Proof.
  unfold broadcast_to; simpl.
  assert (Hin : (if n =? 1 then [stretch n (map f (seq 0 n))]
                 else [map f (seq 0 n)]) = [map f (seq 0 n)]).
  { destruct (n =? 1) eqn:E; [|reflexivity].
    apply Nat.eqb_eq in E. subst n. reflexivity. }
  rewrite Hin. simpl. apply repeat_as_map.
Qed.

Lemma broadcast_column (f : nat -> F) (n t : nat) :
  broadcast_to t n
    {| nrows := t; ncols := 1; rows := map (fun i => [f i]) (seq 0 t) |}
  = map (fun i => map (fun _ => f i) (seq 0 n)) (seq 0 t).
Proof.
  unfold broadcast_to; simpl.
  rewrite map_map. simpl.
  assert (Hrows : map (fun i => repeat (f i) n) (seq 0 t)
                  = map (fun i => map (fun _ => f i) (seq 0 n)) (seq 0 t)).
  { apply map_ext. intros i. apply repeat_as_map. }
  rewrite Hrows.
  destruct (t =? 1) eqn:E; [|reflexivity].
  apply Nat.eqb_eq in E. subst t. reflexivity.
Qed.

Lemma wf_table (f : nat -> nat -> F) (n t : nat) :
  wf {| nrows := t; ncols := n;
        rows := map (fun i => map (f i) (seq 0 n)) (seq 0 t) |}.
Proof.
  split; simpl.
  - now rewrite length_map, length_seq.
  - apply Forall_forall. intros r Hr.
    apply in_map_iff in Hr. destruct Hr as [i [<- _]].
    now rewrite length_map, length_seq.
Qed.

End ArrayFacts.

(** ** The random stream *)

Section StreamFacts.
Context {F G : Type} {FO : Float64 F} {RS : RandomState F G}.

Lemma advance_add (a b : nat) (g : G) :
  advance (a + b) g = advance b (advance a g).
Proof.
  revert g. induction a as [|a IH]; intros g; simpl; [reflexivity|].
  apply IH.
Qed.

Lemma stream_advance (a k : nat) (g : G) :
  stream (advance a g) k = stream g (a + k).
Proof.
  unfold stream. now rewrite advance_add.
Qed.

Lemma draw_list_spec (n : nat) (g : G) :
  draw_list n g = (map (stream g) (seq 0 n), advance n g).
Proof.
  revert g. induction n as [|n IH]; intros g; simpl; [reflexivity|].
  assert (H0 : stream g 0 = fst (gauss g)) by reflexivity.
  assert (Htl : map (stream g) (seq 1 n)
                = map (stream (snd (gauss g))) (seq 0 n)).
  { rewrite <- seq_shift, map_map. reflexivity. }
  rewrite H0, Htl.
  destruct (gauss g) as [z g1]. rewrite IH. reflexivity.
Qed.

Lemma draw_rows_spec (r c : nat) (g : G) :
  draw_rows r c g
  = (map (fun i => map (fun j => stream g (i * c + j)) (seq 0 c)) (seq 0 r),
     advance (r * c) g).
Proof.
  revert g. induction r as [|r IH]; intros g; simpl; [reflexivity|].
  rewrite draw_list_spec, IH. f_equal.
  - f_equal. rewrite <- seq_shift, map_map. apply map_ext. intros i.
    apply map_ext. intros j. rewrite stream_advance. f_equal. lia.
  - now rewrite advance_add.
Qed.

Lemma standard_normal_spec (r c : Z) (g : G) :
  (0 <= r)%Z -> (0 <= c)%Z ->
  standard_normal (r, c) g
  = (Ok {| nrows := Z.to_nat r; ncols := Z.to_nat c;
           rows := map (fun i => map (fun j => stream g (i * Z.to_nat c + j))
                                     (seq 0 (Z.to_nat c)))
                       (seq 0 (Z.to_nat r)) |},
     advance (Z.to_nat r * Z.to_nat c) g).
Proof.
  intros Hr Hc. unfold standard_normal.
  destruct (r <? 0)%Z eqn:Er; [apply Z.ltb_lt in Er; lia|].
  destruct (c <? 0)%Z eqn:Ec; [apply Z.ltb_lt in Ec; lia|].
  simpl. now rewrite draw_rows_spec.
Qed.

Lemma standard_normal_negative (r c : Z) (g : G) :
  (r < 0 \/ c < 0)%Z ->
  standard_normal (r, c) g
  = (Raise (ValueError "negative dimensions are not allowed"), g).
Proof.
  intros H. unfold standard_normal.
  destruct (r <? 0)%Z eqn:Er; [reflexivity|].
  destruct (c <? 0)%Z eqn:Ec; [reflexivity|].
  apply Z.ltb_ge in Er, Ec. lia.
Qed.

(** Cell 3 on dimensions that are not negative: the three arrays, entry by
    entry, and the state it leaves the generator in. *)
Lemma simulate_spec (p : params F) (g : G) :
  (0 <= N p)%Z -> (0 <= T p)%Z ->
  let n := Z.to_nat (N p) in
  let t := Z.to_nat (T p) in
  simulate p g = (Ok (simulated_market p g n t), advance (n + t + t * n) g).
Proof.
  intros HN HT n t.
  unfold simulate, np_random_normal, bindM, ret, lift.
  rewrite (standard_normal_spec g HN); [|lia].
  rewrite (standard_normal_spec _ HT); [|lia].
  change (Z.to_nat 1) with 1. fold n t.
  assert (Hprod :
    array_op fmul
      (np_transpose
         (scalar_op fadd (of_int 1)
            (scalar_op fmul (flit (25 # 100))
               {| nrows := n; ncols := 1;
                  rows := map (fun i => map (fun j => stream g (i * 1 + j))
                                            (seq 0 1)) (seq 0 n) |})))
      (scalar_op fadd (fmul (flit (6 # 100)) (dt p))
         {| nrows := t; ncols := 1;
            rows := map (fun i => map (fun j =>
                           stream (advance (n * 1) g) (i * 1 + j)) (seq 0 1))
                        (seq 0 t) |})
    = Ok {| nrows := t; ncols := n;
            rows := map (fun i => map (fun j =>
                           fmul (sensitivity g j) (factor p g n i)) (seq 0 n))
                        (seq 0 t) |}).
  { unfold array_op, np_transpose, scalar_op; simpl.
    rewrite broadcast_dim_one_l, broadcast_dim_one_r.
    rewrite !map_map. simpl.
    rewrite (column_values_singletons
               (fun i => fadd (of_int 1)
                           (fmul (flit (25 # 100)) (stream g (i * 1 + 0))))).
    rewrite (map_ext _ (sensitivity g)).
    2:{ intros j. unfold sensitivity. do 3 f_equal. lia. }
    rewrite (map_ext _ (fun i => [factor p g n i])).
    2:{ intros i. unfold factor. rewrite stream_advance.
        do 3 f_equal. lia. }
    rewrite (broadcast_row (sensitivity g)).
    rewrite (broadcast_column (factor p g n)).
    rewrite zip_rows_map. do 2 f_equal.
    apply map_ext. intros i.
    rewrite <- (map_id (seq 0 n)) at 1.
    rewrite map_map, zip_with_map. reflexivity. }
  rewrite Hprod.
  rewrite (standard_normal_spec _ HT HN). fold n t.
  unfold array_op, scalar_op; simpl.
  rewrite !broadcast_dim_same.
  set (A := {| nrows := t; ncols := n;
               rows := map (map (fadd (fmul (rf p) (dt p))))
                 (map (fun i => map (fun j =>
                    fmul (sensitivity g j) (factor p g n i)) (seq 0 n))
                    (seq 0 t)) |}).
  set (B := {| nrows := t; ncols := n; rows := map (map (fmul (s p))) _ |}).
  assert (HA : broadcast_to t n A = rows A).
  { apply (broadcast_to_same (A := A)). subst A. rewrite !map_map.
    rewrite (map_ext _ (fun i => map (fun j =>
       fadd (fmul (rf p) (dt p)) (fmul (sensitivity g j) (factor p g n i)))
       (seq 0 n))) by (intros i; apply map_map).
    apply (wf_table (fun i j => fadd (fmul (rf p) (dt p))
                      (fmul (sensitivity g j) (factor p g n i)))). }
  assert (HB : broadcast_to t n B = rows B).
  { apply (broadcast_to_same (A := B)). subst B. rewrite !map_map.
    rewrite (map_ext _ (fun i => map (fun j =>
       fmul (s p) (stream (advance (t * 1) (advance (n * 1) g)) (i * n + j)))
       (seq 0 n))) by (intros i; apply map_map).
    apply (wf_table (fun i j => fmul (s p)
             (stream (advance (t * 1) (advance (n * 1) g)) (i * n + j)))). }
  rewrite HA, HB. subst A B. simpl.
  rewrite !map_map, zip_rows_map.
  unfold simulated_market. f_equal.
  2:{ rewrite <- !advance_add. f_equal. lia. }
  f_equal. f_equal.
  all: f_equal.
  - apply map_ext. intros j. simpl.
    unfold sensitivity. do 4 f_equal. lia.
  - apply map_ext. intros i. simpl.
    unfold factor. rewrite stream_advance. do 3 f_equal. lia.
  - apply map_ext. intros i.
    rewrite !map_map, zip_with_map. apply map_ext. intros j.
    unfold panel_cell, noise, noise_position. do 2 f_equal.
    rewrite !stream_advance. f_equal. lia.
Qed.

End StreamFacts.
(** ** Loops *)

Section LoopFacts.
Context {A : Type}.

Lemma mapM_length (f : nat -> result A) (idx : list nat) (l : list A) :
  mapM f idx = Ok l -> length l = length idx.
Proof.
  revert l. induction idx as [|i idx IH]; intros l H; simpl in H.
  - now inversion H.
  - destruct (f i) as [a|e]; simpl in H; [|discriminate].
    destruct (mapM f idx) as [l'|e]; simpl in H; [|discriminate].
    inversion H; subst. simpl. f_equal. now apply IH.
Qed.

Lemma mapM_nth (f : nat -> result A) (idx : list nat) (l : list A) :
  mapM f idx = Ok l ->
  forall k i, nth_error idx k = Some i ->
              exists a, f i = Ok a /\ nth_error l k = Some a.
Proof.
  revert l. induction idx as [|i0 idx IH]; intros l H k i Hk; simpl in H.
  - destruct k; discriminate.
  - destruct (f i0) as [a0|e] eqn:E0; simpl in H; [|discriminate].
    destruct (mapM f idx) as [l'|e]; simpl in H; [|discriminate].
    inversion H; subst.
    destruct k as [|k]; simpl in Hk.
    + inversion Hk; subst. exists a0. now split.
    + simpl. now apply (IH l').
Qed.

Lemma mapM_all_ok (f : nat -> result A) (idx : list nat) :
  (forall i, In i idx -> exists a, f i = Ok a) ->
  exists l, mapM f idx = Ok l.
Proof.
  induction idx as [|i idx IH]; intros H; simpl.
  - now exists [].
  - destruct (H i (or_introl eq_refl)) as [a Ha]. rewrite Ha. simpl.
    destruct IH as [l Hl]; [intros; apply H; now right|].
    rewrite Hl. simpl. now exists (a :: l).
Qed.

Lemma mapM_ext (f g : nat -> result A) (idx : list nat) :
  (forall i, f i = g i) -> mapM f idx = mapM g idx.
Proof.
  intros H. induction idx as [|i idx IH]; simpl; [reflexivity|].
  now rewrite H, IH.
Qed.

(** The first index at which the body raises decides the exception. *)
Lemma mapM_first_raise (f : nat -> result A) (done rest : list nat)
      (i : nat) (e : exn) :
  (forall k, In k done -> exists a, f k = Ok a) ->
  f i = Raise e ->
  mapM f (done ++ i :: rest) = Raise e.
Proof.
  induction done as [|k done IH]; intros Hdone Hi; simpl.
  - now rewrite Hi.
  - destruct (Hdone k (or_introl eq_refl)) as [a Ha]. rewrite Ha. simpl.
    rewrite IH; [reflexivity| |assumption].
    intros k' Hk'. apply Hdone. now right.
Qed.

End LoopFacts.

Section EstimatorFacts.
Context {F : Type} {FO : Float64 F} {SK : Sklearn F}.

(** The first loop neither rebinds nor changes [mkt] and [data]. *)
Lemma ts_loop_frame (idx : list nat) (e e' : ts_env F) :
  for_each ts_body idx e = Ok e' ->
  ts_mkt e' = ts_mkt e /\ ts_data e' = ts_data e.
Proof.
  revert e. induction idx as [|i idx IH]; intros e H; simpl in H.
  - inversion H; now subst.
  - destruct (ts_body i e) as [e1|x] eqn:E1; [|discriminate].
    apply IH in H. unfold ts_body in E1.
    destruct (get_col (ts_data e) i) as [y|x]; simpl in E1; [|discriminate].
    destruct (fit LinearRegression_default (ts_mkt e) y) as [m|x];
      simpl in E1; [|discriminate].
    destruct (getitem (coef_ m) 0) as [c|x]; simpl in E1; [|discriminate].
    inversion E1; subst e1. simpl in H. exact H.
Qed.

(** The second loop neither rebinds nor changes [b] and [data]. *)
Lemma cs_loop_frame (idx : list nat) (e e' : cs_env F) :
  for_each cs_body idx e = Ok e' ->
  cs_b e' = cs_b e /\ cs_data e' = cs_data e.
Proof.
  revert e. induction idx as [|i idx IH]; intros e H; simpl in H.
  - inversion H; now subst.
  - destruct (cs_body i e) as [e1|x] eqn:E1; [|discriminate].
    apply IH in H. unfold cs_body in E1.
    destruct (get_row (cs_data e) i) as [y|x]; simpl in E1; [|discriminate].
    destruct (fit LinearRegression_default (cs_b e) y) as [m|x];
      simpl in E1; [|discriminate].
    destruct (getitem (coef_ m) 0) as [c|x]; simpl in E1; [|discriminate].
    inversion E1; subst e1. simpl in H. exact H.
Qed.

(** The accumulating loops are maps over their index range. *)
Lemma ts_loop_mapM (idx : list nat) (e : ts_env F) :
  (e' <- for_each ts_body idx e ;; Ok (ts_b e'))
  = (l <- mapM (asset_slope SK (ts_mkt e) (ts_data e)) idx ;;
     Ok (ts_b e ++ l)).
Proof.
  revert e. induction idx as [|i idx IH]; intros e; simpl.
  - now rewrite app_nil_r.
  - unfold ts_body, asset_slope, slope_of.
    destruct (get_col (ts_data e) i) as [y|x]; simpl; [|reflexivity].
    destruct (fit LinearRegression_default (ts_mkt e) y) as [m|x];
      simpl; [|reflexivity].
    destruct (getitem (coef_ m) 0) as [c|x]; simpl; [|reflexivity].
    rewrite IH. simpl.
    fold (asset_slope SK (ts_mkt e) (ts_data e)).
    destruct (mapM _ idx) as [l|x]; simpl; [|reflexivity].
    now rewrite <- app_assoc.
Qed.

Lemma cs_loop_mapM (idx : list nat) (e : cs_env F) :
  (e' <- for_each cs_body idx e ;; Ok (cs_res e'))
  = (l <- mapM (period_slope SK (cs_b e) (cs_data e)) idx ;;
     Ok (cs_res e ++ l)).
Proof.
  revert e. induction idx as [|i idx IH]; intros e; simpl.
  - now rewrite app_nil_r.
  - unfold cs_body, period_slope, slope_of.
    destruct (get_row (cs_data e) i) as [y|x]; simpl; [|reflexivity].
    destruct (fit LinearRegression_default (cs_b e) y) as [m|x];
      simpl; [|reflexivity].
    destruct (getitem (coef_ m) 0) as [c|x]; simpl; [|reflexivity].
    rewrite IH. simpl.
    fold (period_slope SK (cs_b e) (cs_data e)).
    destruct (mapM _ idx) as [l|x]; simpl; [|reflexivity].
    now rewrite <- app_assoc.
Qed.

Lemma time_series_mapM (N : Z) (mkt data : ndarray F) :
  time_series N mkt data = mapM (asset_slope SK mkt data) (range N).
Proof.
  unfold time_series, time_series_loop. rewrite ts_loop_mapM. simpl.
  destruct (mapM _ _); reflexivity.
Qed.

Lemma cross_section_mapM (T : Z) (b : list F) (data : ndarray F) :
  cross_section T b data
  = mapM (period_slope SK (reshape_column b) data) (range T).
Proof.
  unfold cross_section, cross_section_loop. rewrite cs_loop_mapM. simpl.
  destruct (mapM _ _); reflexivity.
Qed.

End EstimatorFacts.

(** ** The term model *)

Lemma closed_form_is_ols : @ols_solver term term_float term_sklearn.
Proof.
  intros X y m Hc Hfit. simpl in Hfit. unfold closed_form_fit in Hfit.
  destruct (nrows X =? 0); [discriminate|].
  rewrite Hc in Hfit. simpl in Hfit.
  destruct (negb (length y =? nrows X)); [discriminate|].
  now inversion Hfit.
Qed.

Lemma intercepts_differ_slopes_agree :
  @same_first_coefficient term term_sklearn term_sklearn'.
Proof.
  intros X y. simpl. unfold other_intercept_fit. simpl.
  destruct (closed_form_fit LinearRegression_default X y); reflexivity.
Qed.

(** ** The first pass *)

Section FirstPass.
Context {F : Type} {FO : Float64 F} {SK : Sklearn F}.

(** C1. The time-series estimator returns one slope per asset, in asset
    order: with a return panel of [N] columns and an ordinary-least-squares
    solver that returns a fit for every column, the output has length [N]
    and its [j]-th entry is the slope of the regression, with intercept, of
    column [j] of the panel on the factor series, that is
    [cov(factor, returns_j) / var(factor)]. *)
Theorem time_series_gives_ols_slopes (N : Z) (mkt data : ndarray F) :
  ols_solver SK ->
  ncols mkt = 1 ->
  ncols data = Z.to_nat N ->
  (forall j, j < Z.to_nat N ->
     exists m, fit LinearRegression_default mkt
                   (column_values (rows data) j) = Ok m) ->
  exists b,
    time_series N mkt data = Ok b /\
    length b = Z.to_nat N /\
    forall j, j < Z.to_nat N ->
      nth_error b j
      = Some (ols_slope (column_values (rows mkt) 0)
                        (column_values (rows data) j)).
Proof.
  intros Hols Hmkt Hdata Hfit.
  assert (Hslope : forall j, j < Z.to_nat N ->
            asset_slope SK mkt data j
            = Ok (ols_slope (column_values (rows mkt) 0)
                            (column_values (rows data) j))).
  { intros j Hj. unfold asset_slope, get_col, slope_of.
    rewrite Hdata. apply Nat.ltb_lt in Hj as Hj'. rewrite Hj'. simpl.
    destruct (Hfit j Hj) as [m Hm]. rewrite Hm. simpl.
    now rewrite (Hols _ _ _ Hmkt Hm). }
  rewrite time_series_mapM.
  destruct (mapM_all_ok (asset_slope SK mkt data) (range N)) as [b Hb].
  { intros j Hj. apply in_seq in Hj. eexists. apply Hslope. lia. }
  exists b. split; [exact Hb|]. split.
  - rewrite (mapM_length _ _ Hb). apply length_seq.
  - intros j Hj.
    destruct (mapM_nth _ _ Hb j (i := j)) as [a [Ha Hnth]].
    { unfold range. rewrite nth_error_seq.
      apply Nat.ltb_lt in Hj. now rewrite Hj. }
    rewrite (Hslope j Hj) in Ha. inversion Ha; subst. exact Hnth.
Qed.

End FirstPass.

Lemma time_series_gives_ols_slopes_on_terms :
  exists b,
    @time_series term term_sklearn 2 two_factors two_by_two = Ok b /\
    length b = 2 /\
    forall j, j < 2 ->
      nth_error b j
      = Some (@ols_slope term term_float
                (column_values (rows two_factors) 0)
                (column_values (rows two_by_two) j)).
Proof.
  apply (@time_series_gives_ols_slopes term term_float term_sklearn
           2%Z two_factors two_by_two).
  - exact closed_form_is_ols.
  - reflexivity.
  - reflexivity.
  - intros j Hj. destruct j as [|[|j]].
    + eexists; reflexivity.
    + eexists; reflexivity.
    + simpl in Hj. lia.
Defined.

(** ** The second pass *)

Section SecondPass.
Context {F : Type} {FO : Float64 F} {SK : Sklearn F}.

(** C2. The cross-sectional estimator returns one slope per period, in
    period order: with a well-formed panel of [T] rows and an
    ordinary-least-squares solver that returns a fit for every row, the
    output has length [T] and its [i]-th entry is the slope of the
    regression of row [i] of the panel on the vector [b] of estimated
    sensitivities, the same [b] for every period. *)
Theorem cross_section_gives_ols_slopes (T : Z) (b : list F)
        (data : ndarray F) :
  ols_solver SK ->
  wf data ->
  nrows data = Z.to_nat T ->
  (forall i y, nth_error (rows data) i = Some y ->
     exists m, fit LinearRegression_default (reshape_column b) y = Ok m) ->
  exists res,
    cross_section T b data = Ok res /\
    length res = Z.to_nat T /\
    forall i, i < Z.to_nat T ->
      exists y, nth_error (rows data) i = Some y /\
                nth_error res i = Some (ols_slope b y).
Proof.
  intros Hols [Hlen _] Hrows Hfit.
  assert (Hslope : forall i, i < Z.to_nat T ->
            exists y, nth_error (rows data) i = Some y /\
                      period_slope SK (reshape_column b) data i
                      = Ok (ols_slope b y)).
  { intros i Hi. unfold period_slope, get_row, getitem, slope_of.
    rewrite Hrows. apply Nat.ltb_lt in Hi as Hi'. rewrite Hi'.
    destruct (nth_error (rows data) i) as [y|] eqn:Ey.
    - exists y. split; [reflexivity|]. simpl.
      destruct (Hfit i y Ey) as [m Hm]. rewrite Hm. simpl.
      rewrite (Hols (reshape_column b) y m eq_refl Hm).
      now rewrite column_values_reshape.
    - apply nth_error_None in Ey. lia. }
  rewrite cross_section_mapM.
  destruct (mapM_all_ok (period_slope SK (reshape_column b) data) (range T))
    as [res Hres].
  { intros i Hi. apply in_seq in Hi.
    destruct (Hslope i) as [y [_ Hy]]; [lia|]. eexists. exact Hy. }
  exists res. split; [exact Hres|]. split.
  - rewrite (mapM_length _ _ Hres). apply length_seq.
  - intros i Hi.
    destruct (mapM_nth _ _ Hres i (i := i)) as [a [Ha Hnth]].
    { unfold range. rewrite nth_error_seq.
      apply Nat.ltb_lt in Hi. now rewrite Hi. }
    destruct (Hslope i Hi) as [y [Ey Hy]].
    exists y. split; [exact Ey|].
    rewrite Hy in Ha. inversion Ha; subst. exact Hnth.
Qed.

End SecondPass.

Lemma cross_section_gives_ols_slopes_on_terms :
  exists res,
    @cross_section term term_sklearn 2 [Lit (1 # 2); Lit (3 # 2)] two_by_two
    = Ok res /\
    length res = 2 /\
    forall i, i < 2 ->
      exists y, nth_error (rows two_by_two) i = Some y /\
                nth_error res i
                = Some (@ols_slope term term_float
                          [Lit (1 # 2); Lit (3 # 2)] y).
Proof.
  apply (@cross_section_gives_ols_slopes term term_float term_sklearn
           2%Z [Lit (1 # 2); Lit (3 # 2)] two_by_two).
  - exact closed_form_is_ols.
  - split; [reflexivity|]. repeat constructor.
  - reflexivity.
  - intros i y Hy. destruct i as [|[|i]]; simpl in Hy.
    + inversion Hy; subst. eexists; reflexivity.
    + inversion Hy; subst. eexists; reflexivity.
    + destruct i; discriminate.
Defined.

(** ** The summary *)

Section SummaryFacts.
Context {F : Type} {FO : Float64 F} {SP : Scipy F}.

(** On a list that is not empty the summary cells raise nothing. *)
Lemma summary_of_nonempty (T : Z) (x : F) (res : list F) :
  exists st, summary T (x :: res) = Ok st.
Proof. eexists. reflexivity. Qed.

(** C3. For [T >= 2] premium estimates the summary cells compute: the
    mean [sum / T]; the standard deviation with denominator [T - 1]; the
    standard error, which is that standard deviation divided by
    [sqrt(T)]; the t score, which is the mean divided by the standard
    error; and the p-value [t.sf(t_score, T)], the upper tail at the t
    score of Student's t with [T] degrees of freedom. *)
Theorem summary_statistics (T : Z) (res : list F) :
  Z.of_nat (length res) = T ->
  (2 <= T)%Z ->
  let m := fdiv (fsum res) (of_int T) in
  let sd := fsqrt (fdiv (fsum (map (fun x => fmul (fsub m x) (fsub m x)) res))
                        (of_int (T - 1))) in
  let se := fdiv sd (fsqrt (of_int T)) in
  let t := fdiv m se in
  summary T res
  = Ok {| mean := [m]; std := [sd]; se := [se]; t_score := [t];
          p_value := t_sf t T |}.
Proof.
  intros Hlen HT. destruct res as [|x res]; [simpl in Hlen; lia|].
  unfold summary, DataFrame, df_std, df_mean, column_var, column_mean.
  cbn [map zip_with getitem nth_error bind].
  rewrite Hlen. reflexivity.
Qed.

End SummaryFacts.

Lemma summary_statistics_on_terms :
  let res := [Lit (1 # 100); Lit (3 # 100)] in
  let m := Div (Sum res) (Int 2) in
  let sd := Sqrt (Div (Sum (map (fun x => Mul (Sub m x) (Sub m x)) res))
                      (Int 1)) in
  let se := Div sd (Sqrt (Int 2)) in
  let t := Div m se in
  @summary term term_float term_scipy 2 res
  = Ok {| mean := [m]; std := [sd]; se := [se]; t_score := [t];
          p_value := StudentSf t 2 |}.
Proof.
  apply (@summary_statistics term term_float term_scipy 2%Z
           [Lit (1 # 100); Lit (3 # 100)]).
  - reflexivity.
  - lia.
Defined.

(** ** The simulator *)

Section SimulatorFacts.
Context {F G : Type} {FO : Float64 F} {RS : RandomState F G}.

Lemma simulate_negative (p : params F) (g : G) :
  (N p < 0 \/ T p < 0)%Z ->
  exists g',
    simulate p g
    = (Raise (ValueError "negative dimensions are not allowed"), g').
Proof.
  intros H. unfold simulate, np_random_normal, bindM.
  destruct (Z.ltb_spec (N p) 0) as [HN|HN].
  - rewrite standard_normal_negative by (left; exact HN).
    now exists g.
  - rewrite (standard_normal_spec g HN) by lia.
    unfold ret.
    rewrite standard_normal_negative by lia.
    eexists. reflexivity.
Qed.

(** C4. On valid dimensions ([N > 0], [T > 0]; the scale may be any
    number) cell 3 produces exactly [simulated_market]: [N] sensitivities
    [1 + 0.25 * z_j], each from its own standard normal draw; [T] factor
    values [0.06 * dt + z_i], each the factor mean plus its own standard
    normal draw; and a [T] by [N] panel whose cell for period [i] and asset
    [j] is [rf * dt + sensitivity_j * factor_i + s * z_ij]; the noise draws
    [z_ij] sit at different places of the stream for different cells. *)
Theorem simulator_output (p : params F) (g : G) :
  (0 < N p)%Z -> (0 < T p)%Z ->
  let n := Z.to_nat (N p) in
  let t := Z.to_nat (T p) in
  simulate p g = (Ok (simulated_market p g n t), advance (n + t + t * n) g)
  /\ forall i j i' j', j < n -> j' < n ->
       noise_position n t i j = noise_position n t i' j' ->
       i = i' /\ j = j'.
Proof.
  intros HN HT n t. split.
  - apply simulate_spec; lia.
  - unfold noise_position. intros i j i' j' Hj Hj' H.
    assert (Hi : i = i') by nia. subst i'. split; [reflexivity|lia].
Qed.

(** C6, as the code has it. Cell 3 checks no dimension itself. It raises
    when [N] or [T] is negative, because numpy refuses a negative
    dimension; with [N >= 0] and [T >= 0], zero included, it raises
    nothing and returns arrays of shapes [(N, 1)], [(T, 1)] and
    [(T, N)]. *)
Theorem simulate_rejects_only_negative_dimensions (p : params F) (g : G) :
  ((N p < 0 \/ T p < 0)%Z ->
   exists g',
     simulate p g
     = (Raise (ValueError "negative dimensions are not allowed"), g'))
  /\
  ((0 <= N p)%Z -> (0 <= T p)%Z ->
   let n := Z.to_nat (N p) in
   let t := Z.to_nat (T p) in
   simulate p g = (Ok (simulated_market p g n t), advance (n + t + t * n) g)).
Proof.
  split.
  - apply simulate_negative.
  - apply simulate_spec.
Qed.

(** C7. Two runs of the simulator (seed the generator, then cell 3) with
    the same seed and the same parameters return the same three arrays and
    leave the generator in the same state, whatever state the generator
    was in before each run. *)
Theorem same_seed_same_market (seed : Z) (p : params F) (g1 g2 : G) :
  run_simulator seed p g1 = run_simulator seed p g2.
Proof. reflexivity. Qed.

End SimulatorFacts.

Lemma simulator_output_on_terms :
  @simulate term _ term_float term_random (tiny 2 3) (42%Z, 0)
  = (Ok (@simulated_market term _ term_float term_random
           (tiny 2 3) (42%Z, 0) 2 3),
     @advance term _ term_random 11 (42%Z, 0))
  /\ forall i j i' j', j < 2 -> j' < 2 ->
       noise_position 2 3 i j = noise_position 2 3 i' j' ->
       i = i' /\ j = j'.
Proof.
  apply (@simulator_output term _ term_float term_random
           (tiny 2 3) (42%Z, 0)); simpl; lia.
Defined.

Lemma simulate_rejects_only_negative_dimensions_on_terms :
  (exists g',
     @simulate term _ term_float term_random (tiny (-1) 3) (42%Z, 0)
     = (Raise (ValueError "negative dimensions are not allowed"), g'))
  /\
  @simulate term _ term_float term_random (tiny 0 3) (42%Z, 0)
  = (Ok (@simulated_market term _ term_float term_random
           (tiny 0 3) (42%Z, 0) 0 3),
     @advance term _ term_random 3 (42%Z, 0)).
Proof.
  split.
  - apply (proj1 (@simulate_rejects_only_negative_dimensions
                    term _ term_float term_random (tiny (-1) 3) (42%Z, 0))).
    simpl. lia.
  - apply (proj2 (@simulate_rejects_only_negative_dimensions
                    term _ term_float term_random (tiny 0 3) (42%Z, 0)));
      simpl; lia.
Defined.

(** With no asset, or with no period, cell 3 raises nothing: it returns
    empty arrays. *)
Lemma empty_market_is_simulated :
  @simulate term _ term_float term_random (tiny 0 1) (42%Z, 0)
  = (Ok {| beta_true := {| nrows := 0; ncols := 1; rows := [] |};
           mkt := {| nrows := 1; ncols := 1;
                     rows := [[Add (Mul (Lit (6 # 100))
                                        (Div (Int 1) (Int 252)))
                                   (Normal 42 0)]] |};
           data := {| nrows := 1; ncols := 0; rows := [[]] |} |},
     (42%Z, 1))
  /\
  @simulate term _ term_float term_random (tiny 1 0) (42%Z, 0)
  = (Ok {| beta_true := {| nrows := 1; ncols := 1;
                           rows := [[Add (Int 1)
                                         (Mul (Lit (25 # 100))
                                              (Normal 42 0))]] |};
           mkt := {| nrows := 0; ncols := 1; rows := [] |};
           data := {| nrows := 0; ncols := 1; rows := [] |} |},
     (42%Z, 1)).
Proof. split; reflexivity. Qed.

(** Cell 3 alone is not repeatable: run again without seeding, it draws
    from where the first run stopped. *)
Lemma unseeded_rerun_differs :
  let first := @simulate term _ term_float term_random (tiny 1 1) (42%Z, 0) in
  let second := @simulate term _ term_float term_random (tiny 1 1)
                          (snd first) in
  fst first <> fst second.
Proof. simpl. intros H. discriminate H. Qed.

(** ** Failures of the two passes *)

Section Failures.
Context {F : Type} {FO : Float64 F} {SK : Sklearn F} {SP : Scipy F}.

(** C5, as the code has it. Neither pass checks how many observations it
    has. The first pass is one library regression per asset, in asset
    order, the second one per period, in period order; each raises exactly
    when taking the column (or row) or the regression raises, with that
    exception, and returns all its slopes otherwise. The summary cells
    raise nothing on a list that is not empty, of one element included. *)
Theorem passes_check_no_sample_size :
  (forall (N : Z) (mkt data : ndarray F),
      time_series N mkt data = mapM (asset_slope SK mkt data) (range N))
  /\
  (forall (T : Z) (b : list F) (data : ndarray F),
      cross_section T b data
      = mapM (period_slope SK (reshape_column b) data) (range T))
  /\
  (forall (T : Z) (x : F) (res : list F),
      exists st, summary T (x :: res) = Ok st).
Proof.
  split; [|split].
  - apply time_series_mapM.
  - apply cross_section_mapM.
  - apply summary_of_nonempty.
Qed.

End Failures.

(** With one period the first pass returns its slope, with one asset the
    second pass returns its slope, and the standard deviation of one
    premium is computed (as a division by [0]): nothing is raised. *)
Lemma one_observation_is_accepted :
  @time_series term term_sklearn 1 one_row one_row
  = Ok [@ols_slope term term_float [Lit (3 # 100)] [Lit (3 # 100)]]
  /\
  @cross_section term term_sklearn 1 [Lit (1 # 2)] one_row
  = Ok [@ols_slope term term_float [Lit (1 # 2)] [Lit (3 # 100)]]
  /\
  exists st,
    @summary term term_float term_scipy 1 [Lit (1 # 2)] = Ok st /\
    std st = [Sqrt (Div (Sum [Mul (Sub (Div (Sum [Lit (1 # 2)]) (Int 1))
                                       (Lit (1 # 2)))
                                  (Sub (Div (Sum [Lit (1 # 2)]) (Int 1))
                                       (Lit (1 # 2)))])
                        (Int 0))].
Proof.
  split; [reflexivity|]. split; [reflexivity|].
  eexists. split; reflexivity.
Qed.

(** ** What the loops leave alone *)

Section Frames.
Context {F G : Type} {FO : Float64 F} {RS : RandomState F G}
        {SK : Sklearn F} {SP : Scipy F}.

(** C8. Once the first pass has produced [b], its entries stay as they
    are. After any number [k] of iterations of the first loop, [mkt] and
    [data] are the arrays the loop started with. After any number [k] of
    iterations of the second loop, [b] is still the column made of the
    first pass's output and [data] is still the panel; the next iteration
    regresses on that same column. And the market the notebook ends with
    is the one cell 3 made. *)
Theorem estimates_stay_fixed :
  (forall (mkt data : ndarray F) (k : nat) (e : ts_env F),
      for_each ts_body (seq 0 k) (ts_start mkt data) = Ok e ->
      ts_mkt e = mkt /\ ts_data e = data)
  /\
  (forall (b : list F) (data : ndarray F) (k : nat) (e : cs_env F),
      for_each cs_body (seq 0 k) (cs_start b data) = Ok e ->
      cs_b e = reshape_column b /\
      column_values (rows (cs_b e)) 0 = b /\
      cs_data e = data /\
      forall e', cs_body k e = Ok e' ->
        exists c, period_slope SK (reshape_column b) data k = Ok c /\
                  cs_res e' = cs_res e ++ [c] /\
                  cs_b e' = reshape_column b /\ cs_data e' = data)
  /\
  (forall (seed : Z) (p : params F) (g g' : G) (o : outputs F),
      fama_macbeth seed p g = (Ok o, g') ->
      run_simulator seed p g = (Ok (out_market o), g')).
Proof.
  split; [|split].
  - intros mkt data k e H. now apply ts_loop_frame in H.
  - intros b data k e H. apply cs_loop_frame in H. simpl in H.
    destruct H as [Hb Hd]. rewrite Hb, Hd.
    split; [reflexivity|]. split; [apply column_values_reshape|].
    split; [reflexivity|].
    intros e' He'. unfold cs_body in He'. rewrite Hb, Hd in He'.
    unfold period_slope, slope_of.
    destruct (get_row data k) as [y|x]; simpl in *; [|discriminate].
    destruct (fit LinearRegression_default (reshape_column b) y) as [m|x];
      simpl in *; [|discriminate].
    destruct (getitem (coef_ m) 0) as [c|x]; simpl in *; [|discriminate].
    inversion He'; subst e'. simpl. exists c. now repeat split.
  - intros seed p g g' o H. unfold fama_macbeth, bindM, lift, ret in H.
    destruct (run_simulator seed p g) as [[m|x] g1]; [|discriminate].
    destruct (sanity_check m) as [sc|x]; [|discriminate].
    destruct (time_series (N p) (mkt m) (data m)) as [b|x]; [|discriminate].
    destruct (cross_section (T p) b (data m)) as [res|x]; [|discriminate].
    destruct (summary (T p) res) as [st|x]; [|discriminate].
    now inversion H.
Qed.

End Frames.


(** ** The intercept *)

Section Intercept.
Context {F G : Type} {FO : Float64 F} {RS : RandomState F G} {SP : Scipy F}.
Variables SK1 SK2 : Sklearn F.
Hypothesis Hsame : same_first_coefficient SK1 SK2.

Lemma slope_of_same (X : ndarray F) (y : list F) :
  slope_of SK1 X y = slope_of SK2 X y.
Proof.
  unfold slope_of, getitem. specialize (Hsame X y).
  destruct (@fit F SK1 LinearRegression_default X y) as [m1|e1],
           (@fit F SK2 LinearRegression_default X y) as [m2|e2];
    cbn [bind]; try contradiction.
  - now rewrite Hsame.
  - now subst.
Qed.

Lemma time_series_same (N : Z) (mkt data : ndarray F) :
  @time_series F SK1 N mkt data = @time_series F SK2 N mkt data.
Proof.
  rewrite !time_series_mapM. apply mapM_ext. intros j.
  unfold asset_slope. destruct (get_col data j); simpl; [|reflexivity].
  apply slope_of_same.
Qed.

Lemma cross_section_same (T : Z) (b : list F) (data : ndarray F) :
  @cross_section F SK1 T b data = @cross_section F SK2 T b data.
Proof.
  rewrite !cross_section_mapM. apply mapM_ext. intros i.
  unfold period_slope. destruct (get_row data i); simpl; [|reflexivity].
  apply slope_of_same.
Qed.

End Intercept.


(** The two solvers of the term model report different intercepts and
    differ without intercept. *)
Lemma term_solvers_differ :
  @fit term term_sklearn LinearRegression_default two_factors
       [Lit (1 # 100); Lit (3 # 100)]
  <> @fit term term_sklearn' LinearRegression_default two_factors
          [Lit (1 # 100); Lit (3 # 100)]
  /\
  @fit term term_sklearn {| fit_intercept := false |} two_factors
       [Lit (1 # 100); Lit (3 # 100)]
  <> @fit term term_sklearn' {| fit_intercept := false |} two_factors
          [Lit (1 # 100); Lit (3 # 100)].
Proof. split; intros H; discriminate H. Qed.


(** ** The notebook's own run *)

Section Notebook.
Context {F G : Type} {FO : Float64 F} {RS : RandomState F G}.

(** The arrays of cell 3 have the shapes both passes rely on. *)
Lemma simulated_market_shapes (p : params F) (g : G) (n t : nat) :
  let m := simulated_market p g n t in
  ncols (mkt m) = 1 /\ nrows (mkt m) = t /\
  wf (data m) /\ nrows (data m) = t /\ ncols (data m) = n.
Proof.
  simpl. repeat split.
  - simpl. now rewrite length_map, length_seq.
  - simpl. apply Forall_forall. intros r Hr.
    apply in_map_iff in Hr. destruct Hr as [i [<- _]].
    now rewrite length_map, length_seq.
Qed.

(** With the parameters of cell 2 the simulator makes [2000] sensitivities,
    [2520] factor values and a [2520] by [2000] panel. *)
Lemma notebook_market (g : G) :
  exists m g',
    simulate parameters g = (Ok m, g') /\
    nrows (beta_true m) = 2000 /\
    nrows (mkt m) = 2520 /\
    nrows (data m) = 2520 /\ ncols (data m) = 2000.
Proof.
  eexists. eexists. split.
  - apply simulate_spec; simpl; lia.
  - repeat split.
Qed.

End Notebook.

(** * Further properties of the cells *)

(** ** More on loops and arrays *)

Section MoreLoopFacts.
Context {A : Type}.

Lemma mapM_app (f : nat -> result A) (l1 l2 : list nat) :
  mapM f (l1 ++ l2)
  = (a1 <- mapM f l1 ;; a2 <- mapM f l2 ;; Ok (a1 ++ a2)).
Proof.
  induction l1 as [|i l1 IH]; simpl.
  - destruct (mapM f l2); reflexivity.
  - destruct (f i) as [a|e]; simpl; [|reflexivity].
    rewrite IH.
    destruct (mapM f l1) as [a1|e]; simpl; [|reflexivity].
    destruct (mapM f l2) as [a2|e]; reflexivity.
Qed.

Lemma mapM_nth_out (f : nat -> result A) (idx : list nat) (l : list A)
      (k : nat) :
  mapM f idx = Ok l -> length idx <= k -> nth_error l k = None.
Proof.
  intros H Hk. apply nth_error_None. now rewrite (mapM_length _ _ H).
Qed.

End MoreLoopFacts.

Section MoreArrayFacts.
Context {F : Type}.

Lemma column_values_table (X : Type) (f : X -> nat -> F) (l : list X)
      (n j : nat) :
  j < n ->
  column_values (map (fun i => map (f i) (seq 0 n)) l) j
  = map (fun i => f i j) l.
Proof.
  intros Hj. induction l as [|i l IH]; simpl; [reflexivity|].
  rewrite nth_error_map, nth_error_seq.
  apply Nat.ltb_lt in Hj. rewrite Hj. simpl. now rewrite IH.
Qed.

Lemma wf_reshape_column (b : list F) : wf (reshape_column b).
Proof.
  split; simpl.
  - apply length_map.
  - apply Forall_forall. intros r Hr.
    apply in_map_iff in Hr. now destruct Hr as [x [<- _]].
Qed.

Lemma wf_column (f : nat -> F) (t : nat) :
  wf {| nrows := t; ncols := 1; rows := map (fun i => [f i]) (seq 0 t) |}.
Proof.
  split; simpl.
  - now rewrite length_map, length_seq.
  - apply Forall_forall. intros r Hr.
    apply in_map_iff in Hr. now destruct Hr as [x [<- _]].
Qed.

End MoreArrayFacts.

(** ** What one slope depends on *)

Section Independence.
Context {F : Type} {FO : Float64 F} {SK : Sklearn F}.

(** Entry [j] of the first pass depends on the panel through column [j]
    only: two panels with the same column [j] give the same entry [j],
    whatever their other columns hold. *)
Theorem asset_slope_reads_its_column (N : Z) (mkt data data' : ndarray F)
        (b b' : list F) (j : nat) :
  time_series N mkt data = Ok b ->
  time_series N mkt data' = Ok b' ->
  get_col data j = get_col data' j ->
  nth_error b j = nth_error b' j.
Proof.
  rewrite !time_series_mapM. intros Hb Hb' Hcol.
  destruct (Nat.lt_ge_cases j (Z.to_nat N)) as [Hj|Hj].
  - assert (Hidx : nth_error (range N) j = Some j).
    { unfold range. rewrite nth_error_seq.
      apply Nat.ltb_lt in Hj. now rewrite Hj. }
    destruct (mapM_nth _ _ Hb j Hidx) as [a [Ha Hn]].
    destruct (mapM_nth _ _ Hb' j Hidx) as [a' [Ha' Hn']].
    unfold asset_slope in Ha, Ha'. rewrite Hcol in Ha.
    rewrite Ha in Ha'. inversion Ha'; subst. now rewrite Hn, Hn'.
  - rewrite (mapM_nth_out _ _ Hb), (mapM_nth_out _ _ Hb');
      [reflexivity| |]; unfold range; now rewrite length_seq.
Qed.

(** Entry [i] of the second pass depends on the panel through row [i]
    only. *)
Theorem period_slope_reads_its_row (T : Z) (b : list F)
        (data data' : ndarray F) (res res' : list F) (i : nat) :
  cross_section T b data = Ok res ->
  cross_section T b data' = Ok res' ->
  get_row data i = get_row data' i ->
  nth_error res i = nth_error res' i.
Proof.
  rewrite !cross_section_mapM. intros Hr Hr' Hrow.
  destruct (Nat.lt_ge_cases i (Z.to_nat T)) as [Hi|Hi].
  - assert (Hidx : nth_error (range T) i = Some i).
    { unfold range. rewrite nth_error_seq.
      apply Nat.ltb_lt in Hi. now rewrite Hi. }
    destruct (mapM_nth _ _ Hr i Hidx) as [a [Ha Hn]].
    destruct (mapM_nth _ _ Hr' i Hidx) as [a' [Ha' Hn']].
    unfold period_slope in Ha, Ha'. rewrite Hrow in Ha.
    rewrite Ha in Ha'. inversion Ha'; subst. now rewrite Hn, Hn'.
  - rewrite (mapM_nth_out _ _ Hr), (mapM_nth_out _ _ Hr');
      [reflexivity| |]; unfold range; now rewrite length_seq.
Qed.

(** Running either pass over fewer assets (or periods) returns the
    beginning of the longer run: an entry does not depend on the entries
    computed after it. With a count that is zero or negative the pass
    returns the empty list. *)
Theorem shorter_pass_is_a_prefix :
  (forall (N N' : Z) (mkt data : ndarray F) (b : list F),
      time_series N mkt data = Ok b -> (N' <= N)%Z ->
      time_series N' mkt data = Ok (firstn (Z.to_nat N') b))
  /\
  (forall (T T' : Z) (b : list F) (data : ndarray F) (res : list F),
      cross_section T b data = Ok res -> (T' <= T)%Z ->
      cross_section T' b data = Ok (firstn (Z.to_nat T') res)).
Proof.
  assert (Hprefix : forall (f : nat -> result F) (n n' : nat) (l : list F),
            mapM f (seq 0 n) = Ok l -> n' <= n ->
            mapM f (seq 0 n') = Ok (firstn n' l)).
  { intros f n n' l Hl Hn.
    replace n with (n' + (n - n')) in Hl by lia.
    rewrite seq_app, mapM_app in Hl.
    destruct (mapM f (seq 0 n')) as [a1|e] eqn:E1; simpl in Hl;
      [|discriminate].
    destruct (mapM f (seq _ (n - n'))) as [a2|e]; simpl in Hl;
      [|discriminate].
    inversion Hl; subst l. f_equal.
    apply mapM_length in E1. rewrite length_seq in E1.
    rewrite <- E1 at 1. rewrite firstn_app, firstn_all, Nat.sub_diag.
    simpl. now rewrite app_nil_r. }
  split.
  - intros N N' mkt data b Hb HN. rewrite time_series_mapM in *.
    apply (Hprefix _ (Z.to_nat N)); [exact Hb|lia].
  - intros T T' b data res Hr HT. rewrite cross_section_mapM in *.
    apply (Hprefix _ (Z.to_nat T)); [exact Hr|lia].
Qed.

(** Asking for more assets than the panel has columns, or for more periods
    than it has rows, raises [IndexError] once the regressions on the
    columns (rows) that exist have returned. *)
Theorem pass_beyond_the_panel_raises :
  (forall (N : Z) (mkt data : ndarray F),
      ncols data < Z.to_nat N ->
      (forall j, j < ncols data ->
                 exists c, asset_slope SK mkt data j = Ok c) ->
      time_series N mkt data
      = Raise (IndexError "index is out of bounds for axis 1"))
  /\
  (forall (T : Z) (b : list F) (data : ndarray F),
      nrows data < Z.to_nat T ->
      (forall i, i < nrows data ->
                 exists c, period_slope SK (reshape_column b) data i = Ok c) ->
      cross_section T b data
      = Raise (IndexError "index is out of bounds for axis 0")).
Proof.
  split.
  - intros N mkt data HN Hfit. rewrite time_series_mapM. unfold range.
    replace (Z.to_nat N)
      with (ncols data + S (Z.to_nat N - S (ncols data))) by lia.
    rewrite seq_app. simpl seq.
    apply mapM_first_raise.
    + intros k Hk. apply in_seq in Hk. apply Hfit. lia.
    + unfold asset_slope, get_col. simpl.
      now rewrite Nat.ltb_irrefl.
  - intros T b data HT Hfit. rewrite cross_section_mapM. unfold range.
    replace (Z.to_nat T)
      with (nrows data + S (Z.to_nat T - S (nrows data))) by lia.
    rewrite seq_app. simpl seq.
    apply mapM_first_raise.
    + intros k Hk. apply in_seq in Hk. apply Hfit. lia.
    + unfold period_slope, get_row. simpl.
      now rewrite Nat.ltb_irrefl.
Qed.

End Independence.

Lemma asset_slope_reads_its_column_on_terms :
  exists b b',
    @time_series term term_sklearn 2 two_factors two_by_two = Ok b /\
    @time_series term term_sklearn 2 two_factors two_by_two_alt = Ok b' /\
    nth_error b 0 = nth_error b' 0.
Proof.
  eexists. eexists.
  split; [vm_compute; reflexivity|]. split; [vm_compute; reflexivity|].
  apply (@asset_slope_reads_its_column term term_sklearn 2%Z two_factors
           two_by_two two_by_two_alt); reflexivity.
Defined.

Lemma period_slope_reads_its_row_on_terms :
  exists res res',
    @cross_section term term_sklearn 2 [Lit (1 # 2); Lit (3 # 2)] two_by_two
    = Ok res /\
    @cross_section term term_sklearn 2 [Lit (1 # 2); Lit (3 # 2)]
                   two_by_two_alt = Ok res' /\
    nth_error res 0 = nth_error res' 0.
Proof.
  eexists. eexists.
  split; [vm_compute; reflexivity|]. split; [vm_compute; reflexivity|].
  apply (@period_slope_reads_its_row term term_sklearn 2%Z
           [Lit (1 # 2); Lit (3 # 2)] two_by_two two_by_two_alt);
    reflexivity.
Defined.

Lemma shorter_pass_is_a_prefix_on_terms :
  (exists b,
      @time_series term term_sklearn 2 two_factors two_by_two = Ok b /\
      @time_series term term_sklearn 1 two_factors two_by_two
      = Ok (firstn 1 b))
  /\
  (exists res,
      @cross_section term term_sklearn 2 [Lit (1 # 2); Lit (3 # 2)]
                     two_by_two = Ok res /\
      @cross_section term term_sklearn 0 [Lit (1 # 2); Lit (3 # 2)]
                     two_by_two = Ok (firstn 0 res)).
Proof.
  split.
  - eexists. split; [vm_compute; reflexivity|].
    apply (proj1 (@shorter_pass_is_a_prefix term term_sklearn)
             2%Z 1%Z two_factors two_by_two); [reflexivity|lia].
  - eexists. split; [vm_compute; reflexivity|].
    apply (proj2 (@shorter_pass_is_a_prefix term term_sklearn)
             2%Z 0%Z [Lit (1 # 2); Lit (3 # 2)] two_by_two);
      [reflexivity|lia].
Defined.

Lemma pass_beyond_the_panel_raises_on_terms :
  @time_series term term_sklearn 3 two_factors two_by_two
  = Raise (IndexError "index is out of bounds for axis 1")
  /\
  @cross_section term term_sklearn 3 [Lit (1 # 2); Lit (3 # 2)] two_by_two
  = Raise (IndexError "index is out of bounds for axis 0").
Proof.
  split.
  - apply (proj1 (@pass_beyond_the_panel_raises term term_sklearn)).
    + simpl. lia.
    + intros j Hj. destruct j as [|[|j]].
      * eexists; reflexivity.
      * eexists; reflexivity.
      * simpl in Hj. lia.
  - apply (proj2 (@pass_beyond_the_panel_raises term term_sklearn)).
    + simpl. lia.
    + intros i Hi. destruct i as [|[|i]].
      * eexists; reflexivity.
      * eexists; reflexivity.
      * simpl in Hi. lia.
Defined.

(** ** The simulator and the random stream *)

Section MoreSimulatorFacts.
Context {F G : Type} {FO : Float64 F} {RS : RandomState F G}.

(** A run of cell 3 that raises has still drawn: with a negative [N] the
    generator is left where it was, but with [N >= 0] and a negative [T]
    the [N] draws of [beta_true] are spent before the exception. *)
Theorem failed_simulation_spends_draws (p : params F) (g : G) :
  ((N p < 0)%Z ->
   simulate p g
   = (Raise (ValueError "negative dimensions are not allowed"), g))
  /\
  ((0 <= N p)%Z -> (T p < 0)%Z ->
   simulate p g
   = (Raise (ValueError "negative dimensions are not allowed"),
      advance (Z.to_nat (N p)) g)).
Proof.
  split.
  - intros HN. unfold simulate, np_random_normal, bindM.
    now rewrite standard_normal_negative by (left; exact HN).
  - intros HN HT. unfold simulate, np_random_normal, bindM, ret.
    rewrite (standard_normal_spec g HN) by lia.
    rewrite standard_normal_negative by (left; exact HT).
    change (Z.to_nat 1) with 1. now rewrite Nat.mul_1_r.
Qed.

(** Cell 3 run twice without seeding in between: the second market is made
    of the block of draws that follows the block of the first, so its
    sensitivities, factor and noise are all new. *)
Theorem rerun_draws_the_next_block (p : params F) (g : G) :
  (0 <= N p)%Z -> (0 <= T p)%Z ->
  let n := Z.to_nat (N p) in
  let t := Z.to_nat (T p) in
  let k := n + t + t * n in
  (m1 <~ simulate p ;; m2 <~ simulate p ;; ret (m1, m2)) g
  = (Ok (simulated_market p g n t, simulated_market p (advance k g) n t),
     advance (k + k) g)
  /\ (forall j, sensitivity (advance k g) j
                = fadd (of_int 1) (fmul (flit (25 # 100)) (stream g (k + j))))
  /\ (forall i, factor p (advance k g) n i
                = fadd (fmul (flit (6 # 100)) (dt p)) (stream g (k + (n + i))))
  /\ (forall i j, noise (advance k g) n t i j
                  = stream g (k + noise_position n t i j)).
Proof.
  intros HN HT n t k. split; [|split; [|split]].
  - unfold bindM, ret.
    rewrite (simulate_spec p g HN HT). fold n t k.
    rewrite (simulate_spec p (advance k g) HN HT). fold n t k.
    now rewrite <- advance_add.
  - intros j. unfold sensitivity. now rewrite stream_advance.
  - intros i. unfold factor. now rewrite stream_advance.
  - intros i j. unfold noise. now rewrite stream_advance.
Qed.

End MoreSimulatorFacts.

Lemma failed_simulation_spends_draws_on_terms :
  @simulate term _ term_float term_random (tiny (-1) 3) (42%Z, 0)
  = (Raise (ValueError "negative dimensions are not allowed"), (42%Z, 0))
  /\
  @simulate term _ term_float term_random (tiny 2 (-1)) (42%Z, 0)
  = (Raise (ValueError "negative dimensions are not allowed"),
     @advance term _ term_random 2 (42%Z, 0)).
Proof.
  split.
  - apply (proj1 (@failed_simulation_spends_draws term _ term_float
                    term_random (tiny (-1) 3) (42%Z, 0))).
    simpl. lia.
  - apply (proj2 (@failed_simulation_spends_draws term _ term_float
                    term_random (tiny 2 (-1)) (42%Z, 0))); simpl; lia.
Defined.

Lemma rerun_draws_the_next_block_on_terms :
  let p := tiny 1 1 in
  let g := (42%Z, 0) in
  (m1 <~ @simulate term _ term_float term_random p ;;
   m2 <~ @simulate term _ term_float term_random p ;; ret (m1, m2)) g
  = (Ok (@simulated_market term _ term_float term_random p g 1 1,
         @simulated_market term _ term_float term_random p
            (@advance term _ term_random 3 g) 1 1),
     @advance term _ term_random 6 g)
  /\ (forall j, @sensitivity term _ term_float term_random
                  (@advance term _ term_random 3 g) j
                = Add (Int 1) (Mul (Lit (25 # 100))
                                   (@stream term _ term_random g (3 + j))))
  /\ (forall i, @factor term _ term_float term_random p
                  (@advance term _ term_random 3 g) 1 i
                = Add (Mul (Lit (6 # 100)) (Div (Int 1) (Int 252)))
                      (@stream term _ term_random g (3 + (1 + i))))
  /\ (forall i j, @noise term _ term_random
                    (@advance term _ term_random 3 g) 1 1 i j
                  = @stream term _ term_random g
                      (3 + noise_position 1 1 i j)).
Proof.
  apply (@rerun_draws_the_next_block term _ term_float term_random
           (tiny 1 1) (42%Z, 0)); simpl; lia.
Defined.



(** ** The passes on well-shaped input *)

Section WellShaped.
Context {F : Type} {FO : Float64 F} {SK : Sklearn F}.

Lemma column_values_length (rs : list (list F)) (j c : nat) :
  Forall (fun r => length r = c) rs -> j < c ->
  length (column_values rs j) = length rs.
Proof.
  intros Hrs Hj.
  induction Hrs as [|r rs Hr _ IH]; simpl; [reflexivity|].
  destruct (nth_error r j) eqn:E.
  - simpl. now rewrite IH.
  - apply nth_error_None in E. lia.
Qed.

Lemma slope_of_accepted (X : ndarray F) (y : list F) :
  accepts_samples SK ->
  wf X -> 1 <= nrows X -> ncols X = 1 -> length y = nrows X ->
  exists c, slope_of SK X y = Ok c.
Proof.
  intros Hacc HX Hn Hc Hy.
  destruct (Hacc X y HX Hn Hc Hy) as [m [c [Hm Hcoef]]].
  exists c. unfold slope_of, getitem. rewrite Hm. cbn [bind].
  now rewrite Hcoef.
Qed.

Lemma time_series_returns (N : Z) (mkt data : ndarray F) :
  accepts_samples SK ->
  wf mkt -> ncols mkt = 1 -> 1 <= nrows mkt ->
  wf data -> nrows data = nrows mkt -> ncols data = Z.to_nat N ->
  exists b, time_series N mkt data = Ok b /\ length b = Z.to_nat N.
Proof.
  intros Hacc Hmkt Hc Hn [Hlen Hrows] Hsame Hcols.
  rewrite time_series_mapM.
  destruct (mapM_all_ok (asset_slope SK mkt data) (range N)) as [b Hb].
  { intros j Hj. apply in_seq in Hj. unfold asset_slope, get_col.
    rewrite Hcols. destruct (Nat.ltb_spec j (Z.to_nat N)); [|lia].
    cbn [bind]. apply slope_of_accepted; try assumption.
    rewrite (column_values_length (j := j) Hrows) by lia. lia. }
  exists b. split; [exact Hb|].
  rewrite (mapM_length _ _ Hb). apply length_seq.
Qed.

Lemma cross_section_returns (T : Z) (b : list F) (data : ndarray F) :
  accepts_samples SK ->
  1 <= length b ->
  wf data -> nrows data = Z.to_nat T -> ncols data = length b ->
  exists res, cross_section T b data = Ok res /\ length res = Z.to_nat T.
Proof.
  intros Hacc Hb [Hlen Hrows] Hn Hcols.
  rewrite cross_section_mapM.
  destruct (mapM_all_ok (period_slope SK (reshape_column b) data) (range T))
    as [res Hres].
  { intros i Hi. apply in_seq in Hi. unfold period_slope, get_row, getitem.
    rewrite Hn. destruct (Nat.ltb_spec i (Z.to_nat T)); [|lia].
    destruct (nth_error (rows data) i) as [y|] eqn:Ey.
    - cbn [bind]. apply slope_of_accepted; try assumption.
      + apply wf_reshape_column.
      + reflexivity.
      + simpl. rewrite Forall_forall in Hrows.
        rewrite (Hrows y (nth_error_In _ _ Ey)). exact Hcols.
    - apply nth_error_None in Ey. lia. }
  exists res. split; [exact Hres|].
  rewrite (mapM_length _ _ Hres). apply length_seq.
Qed.

End WellShaped.


Lemma closed_form_accepts : accepts_samples term_sklearn.
Proof.
  intros X y _ Hn Hc Hy. simpl. unfold closed_form_fit.
  destruct (Nat.eqb_spec (nrows X) 0) as [E|_]; [lia|].
  rewrite Hc, Hy. simpl. rewrite Nat.eqb_refl. simpl.
  eexists. eexists. split; reflexivity.
Qed.


Section NotebookRegressions.
Context {F G : Type} {FO : Float64 F} {RS : RandomState F G}
        {SK : Sklearn F} {SP : Scipy F}.

(** What each regression of a finished run sees. Beta [j] is the slope the
    solver returns for the [T] returns of asset [j], one per period,
    against the factor column; premium [i] is the slope it returns for the
    [N] returns of period [i], one per asset, against the column of the
    [N] betas just estimated. *)
Theorem notebook_regressions (seed : Z) (p : params F) (g g' : G)
        (o : outputs F) :
  fama_macbeth seed p g = (Ok o, g') ->
  let n := Z.to_nat (N p) in
  let t := Z.to_nat (T p) in
  let g0 := rng_seed seed in
  (forall j, j < n ->
     exists c,
       nth_error (out_b o) j = Some c /\
       slope_of SK
         {| nrows := t; ncols := 1;
            rows := map (fun i => [factor p g0 n i]) (seq 0 t) |}
         (map (fun i => panel_cell p g0 n t i j) (seq 0 t)) = Ok c)
  /\
  (forall i, i < t ->
     exists c,
       nth_error (out_res o) i = Some c /\
       slope_of SK (reshape_column (out_b o))
                (map (panel_cell p g0 n t i) (seq 0 n)) = Ok c).
Proof.
  intros H n t g0. unfold fama_macbeth in H.
  change (run_simulator seed p) with
    (fun g1 : G => simulate p (rng_seed seed)) in H.
  unfold bindM, lift, ret in H. fold g0 in H.
  assert (Hdims : (0 <= N p)%Z /\ (0 <= T p)%Z).
  { destruct (Z.le_gt_cases 0 (N p)) as [HN|HN];
      destruct (Z.le_gt_cases 0 (T p)) as [HT|HT]; [now split| | |];
      (destruct (@simulate_negative F G FO RS p g0) as [g1 Hneg]; [lia|]);
      rewrite Hneg in H; discriminate. }
  destruct Hdims as [HN HT].
  rewrite (simulate_spec p g0 HN HT) in H. fold n t in H.
  set (m := simulated_market p g0 n t) in H.
  destruct (sanity_check m) as [sc|x]; [|discriminate].
  destruct (time_series (N p) (mkt m) (data m)) as [b|x] eqn:Hb;
    [|discriminate].
  destruct (cross_section (T p) b (data m)) as [res|x] eqn:Hres;
    [|discriminate].
  destruct (summary (T p) res) as [st|x]; [|discriminate].
  inversion H; subst o g'. simpl. clear H.
  rewrite time_series_mapM in Hb. rewrite cross_section_mapM in Hres.
  split.
  - intros j Hj.
    destruct (mapM_nth _ _ Hb j (i := j)) as [c [Hc Hn]].
    { unfold range. rewrite nth_error_seq. fold n.
      apply Nat.ltb_lt in Hj. now rewrite Hj. }
    exists c. split; [exact Hn|].
    unfold asset_slope, get_col in Hc. simpl in Hc. fold n in Hc.
    apply Nat.ltb_lt in Hj as Hj'. rewrite Hj' in Hc. cbn [bind] in Hc.
    rewrite (column_values_table (fun i j => panel_cell p g0 n t i j))
      in Hc by exact Hj.
    exact Hc.
  - intros i Hi.
    destruct (mapM_nth _ _ Hres i (i := i)) as [c [Hc Hn]].
    { unfold range. rewrite nth_error_seq. fold t.
      apply Nat.ltb_lt in Hi. now rewrite Hi. }
    exists c. split; [exact Hn|].
    unfold period_slope, get_row, getitem in Hc. simpl in Hc. fold t in Hc.
    apply Nat.ltb_lt in Hi as Hi'. rewrite Hi' in Hc.
    rewrite nth_error_map, nth_error_seq, Hi' in Hc. simpl in Hc.
    exact Hc.
Qed.

(** The sanity check compares like with like. Below 21 assets it raises
    [IndexError]. From 21 assets on, with at least one period and a solver
    that accepts its sample, it regresses the returns of the asset of
    index 20 on the factor, reports as true beta the sensitivity that
    generated those very returns, and its estimated beta is entry 20 of
    the first pass. *)
Theorem sanity_check_is_about_asset_20 :
  (forall m : market F,
      ncols (data m) <= 20 ->
      sanity_check m
      = Raise (IndexError "index is out of bounds for axis 1"))
  /\
  (forall (p : params F) (g : G) (n t : nat),
      accepts_samples SK -> 20 < n -> 1 <= t ->
      let m := simulated_market p g n t in
      exists sc,
        sanity_check m = Ok sc /\
        true_beta sc = sensitivity g 20 /\
        slope_of SK (mkt m) (map (fun i => panel_cell p g n t i 20) (seq 0 t))
        = Ok (estimated_beta sc) /\
        forall b, time_series (Z.of_nat n) (mkt m) (data m) = Ok b ->
                  nth_error b 20 = Some (estimated_beta sc)).
Proof.
  split.
  - intros m Hm. unfold sanity_check, get_col.
    destruct (Nat.ltb_spec 20 (ncols (data m))); [lia|reflexivity].
  - intros p g n t Hacc Hn Ht m.
    assert (Hcol : get_col (data m) 20
                   = Ok (map (fun i => panel_cell p g n t i 20) (seq 0 t))).
    { unfold get_col. simpl.
      apply Nat.ltb_lt in Hn as Hn'. rewrite Hn'.
      now rewrite (column_values_table
                     (fun i j => panel_cell p g n t i j)). }
    destruct (Hacc (mkt m)
                   (map (fun i => panel_cell p g n t i 20) (seq 0 t)))
      as [fitted_model [c [Hfit Hcoef]]].
    { apply (wf_column (fun i => factor p g n i)). }
    { exact Ht. }
    { reflexivity. }
    { simpl. now rewrite length_map, length_seq. }
    assert (Hslope : slope_of SK (mkt m)
                       (map (fun i => panel_cell p g n t i 20) (seq 0 t))
                     = Ok c).
    { unfold slope_of, getitem. rewrite Hfit. cbn [bind].
      now rewrite Hcoef. }
    exists {| intercept := intercept_ fitted_model;
              estimated_beta := c;
              true_beta := sensitivity g 20 |}.
    split; [|split; [reflexivity|split; [exact Hslope|]]].
    + unfold sanity_check. rewrite Hcol. cbn [bind]. rewrite Hfit.
      cbn [bind]. unfold getitem at 1. rewrite Hcoef.
      unfold get_row. unfold m. cbn [beta_true simulated_market nrows rows].
      apply Nat.ltb_lt in Hn as Hn'. rewrite Hn'.
      unfold getitem. rewrite nth_error_map, nth_error_seq, Hn'.
      reflexivity.
    + intros b Hb. rewrite time_series_mapM in Hb.
      destruct (mapM_nth _ _ Hb 20 (i := 20)) as [a [Ha Hnth]].
      { unfold range. rewrite nth_error_seq, Nat2Z.id.
        apply Nat.ltb_lt in Hn. now rewrite Hn. }
      unfold asset_slope in Ha. rewrite Hcol in Ha. cbn [bind] in Ha.
      rewrite Hslope in Ha. inversion Ha; subst. exact Hnth.
Qed.

End NotebookRegressions.


Lemma sanity_check_is_about_asset_20_on_terms :
  @sanity_check term term_sklearn
    (@simulated_market term _ term_float term_random (tiny 2 2) (42%Z, 0) 2 2)
  = Raise (IndexError "index is out of bounds for axis 1")
  /\
  let p := tiny 21 1 in
  let g := (42%Z, 0) in
  let m := @simulated_market term _ term_float term_random p g 21 1 in
  exists sc,
    @sanity_check term term_sklearn m = Ok sc /\
    true_beta sc = @sensitivity term _ term_float term_random g 20 /\
    slope_of term_sklearn (mkt m)
             (map (fun i => @panel_cell term _ term_float term_random
                              p g 21 1 i 20) (seq 0 1))
    = Ok (estimated_beta sc) /\
    forall b, @time_series term term_sklearn (Z.of_nat 21) (mkt m) (data m)
              = Ok b ->
              nth_error b 20 = Some (estimated_beta sc).
Proof.
  split.
  - apply (proj1 (@sanity_check_is_about_asset_20 term _ term_float
                    term_random term_sklearn)).
    simpl. lia.
  - apply (proj2 (@sanity_check_is_about_asset_20 term _ term_float
                    term_random term_sklearn) (tiny 21 1) (42%Z, 0) 21 1).
    + exact closed_form_accepts.
    + lia.
    + lia.
Defined.

(** ** Runs that finish *)

Section FinishedRuns.
Context {F G : Type} {FO : Float64 F} {RS : RandomState F G}
        {SK : Sklearn F} {SP : Scipy F}.

Lemma sanity_check_returns (p : params F) (g : G) (n t : nat) :
  accepts_samples SK -> 20 < n -> 1 <= t ->
  exists sc, sanity_check (simulated_market p g n t) = Ok sc.
Proof.
  intros Hacc Hn Ht. unfold sanity_check, get_col.
  cbn [data mkt beta_true simulated_market ncols rows].
  apply Nat.ltb_lt in Hn as Hn'. rewrite Hn'. cbn [bind].
  rewrite (column_values_table (fun i j => panel_cell p g n t i j)) by lia.
  destruct (Hacc {| nrows := t; ncols := 1;
                    rows := map (fun i => [factor p g n i]) (seq 0 t) |}
                 (map (fun i => panel_cell p g n t i 20) (seq 0 t)))
    as [m [c [Hm Hc]]].
  - apply (wf_column (fun i => factor p g n i)).
  - exact Ht.
  - reflexivity.
  - simpl. now rewrite length_map, length_seq.
  - rewrite Hm. cbn [bind]. unfold getitem at 1. rewrite Hc.
    unfold get_row. cbn [nrows rows]. rewrite Hn'.
    unfold getitem. rewrite nth_error_map, nth_error_seq, Hn'.
    eexists. reflexivity.
Qed.

(** With more than 20 assets, at least one period and a solver that
    accepts its samples, every cell returns. *)
Lemma notebook_returns (seed : Z) (p : params F) (g : G) :
  accepts_samples SK ->
  (20 < N p)%Z -> (0 < T p)%Z ->
  let n := Z.to_nat (N p) in
  let t := Z.to_nat (T p) in
  exists o,
    fama_macbeth seed p g = (Ok o, advance (n + t + t * n) (rng_seed seed)) /\
    out_market o = simulated_market p (rng_seed seed) n t /\
    length (out_b o) = n /\
    length (out_res o) = t.
Proof.
  intros Hacc HN HT n t.
  unfold fama_macbeth.
  change (run_simulator seed p) with
    (fun g0 : G => simulate p (rng_seed seed)).
  unfold bindM, lift, ret.
  rewrite simulate_spec by lia. fold n t.
  set (m := simulated_market p (rng_seed seed) n t).
  destruct (sanity_check_returns p (rng_seed seed) (n := n) (t := t) Hacc)
    as [sc Hsc]; [lia|lia|].
  fold m in Hsc. rewrite Hsc.
  destruct (@time_series_returns F SK (N p) (mkt m) (data m)) as [b [Hb Hlb]];
    try assumption.
  - apply (wf_column (fun i => factor p (rng_seed seed) n i)).
  - reflexivity.
  - simpl. lia.
  - apply (wf_table (fun i j => panel_cell p (rng_seed seed) n t i j)).
  - reflexivity.
  - reflexivity.
  - rewrite Hb.
    destruct (@cross_section_returns F SK (T p) b (data m))
      as [res [Hres Hlr]]; try assumption.
    + rewrite Hlb. lia.
    + apply (wf_table (fun i j => panel_cell p (rng_seed seed) n t i j)).
    + reflexivity.
    + simpl. now rewrite Hlb.
    + rewrite Hres.
      destruct res as [|x res]; [simpl in Hlr; lia|].
      destruct (summary_of_nonempty (T p) x res) as [st Hst].
      rewrite Hst. eexists. split; [reflexivity|].
      simpl. repeat split; assumption.
Qed.

(** The cells fit together. With [N > 20] assets (the sanity check reads
    the asset of index 20), [T > 0] periods and a solver that accepts every
    regression of one regressor on at least one sample, the notebook runs
    to its end: cell 3 hands the sanity check and the first pass a factor
    of [T] rows and columns of length [T], the first pass hands the second
    a column [b] of [N] rows against rows of length [N], and the summary
    gets [T] premia. It returns [N] betas and [T] premia for the market of
    cell 3, and the generator has made [N + T + T * N] draws from the
    seed. *)
Theorem notebook_runs_to_its_end (seed : Z) (p : params F) (g : G) :
  accepts_samples SK ->
  (20 < N p)%Z -> (0 < T p)%Z ->
  let n := Z.to_nat (N p) in
  let t := Z.to_nat (T p) in
  exists o,
    fama_macbeth seed p g = (Ok o, advance (n + t + t * n) (rng_seed seed)) /\
    out_market o = simulated_market p (rng_seed seed) n t /\
    length (out_b o) = n /\
    length (out_res o) = t.
Proof.
  intros Hacc HN HT. now apply notebook_returns.
Qed.

(** Without periods there is no summary. With [T <= 0] the notebook
    raises, whatever the solver does, and the exception is that of the
    first cell that raises: the simulation (a negative dimension), the
    sanity check, the first pass, or else [df.describe()], which refuses
    the frame made of the empty list the second pass returns. *)
Theorem no_period_no_summary (seed : Z) (p : params F) (g : G) :
  (T p <= 0)%Z ->
  fama_macbeth seed p g
  = match run_simulator seed p g with
    | (Raise e, g1) => (Raise e, g1)
    | (Ok m, g1) =>
        match sanity_check m with
        | Raise e => (Raise e, g1)
        | Ok _ =>
            match time_series (N p) (mkt m) (data m) with
            | Raise e => (Raise e, g1)
            | Ok _ =>
                (Raise (ValueError
                          "Cannot describe a DataFrame without columns"), g1)
            end
        end
    end.
Proof.
  intros HT. unfold fama_macbeth, bindM, lift, ret.
  destruct (run_simulator seed p g) as [[m|x] g1]; [|reflexivity].
  destruct (sanity_check m) as [sc|x]; [|reflexivity].
  destruct (time_series (N p) (mkt m) (data m)) as [b|x]; [|reflexivity].
  rewrite cross_section_mapM. unfold range.
  replace (Z.to_nat (T p)) with 0 by lia. reflexivity.
Qed.

End FinishedRuns.

Lemma notebook_runs_to_its_end_on_terms :
  exists o,
    @fama_macbeth term _ term_float term_random term_sklearn term_scipy
                  42 (tiny 21 2) (0%Z, 5)
    = (Ok o, @advance term _ term_random (21 + 2 + 2 * 21) (42%Z, 0)) /\
    out_market o
    = @simulated_market term _ term_float term_random (tiny 21 2)
        (42%Z, 0) 21 2 /\
    length (out_b o) = 21 /\
    length (out_res o) = 2.
Proof.
  apply (@notebook_runs_to_its_end term _ term_float term_random
           term_sklearn term_scipy 42%Z (tiny 21 2) (0%Z, 5)).
  - exact closed_form_accepts.
  - simpl. lia.
  - simpl. lia.
Defined.

(** With 21 assets and no period the run stops at the sanity check, whose
    regression has no sample. *)
Lemma no_period_no_summary_on_terms :
  @fama_macbeth term _ term_float term_random term_sklearn term_scipy
                42 (tiny 21 0) (0%Z, 5)
  = (Raise (ValueError "Found array with 0 sample(s)"), (42%Z, 21)).
Proof.
  rewrite (@no_period_no_summary term _ term_float term_random
             term_sklearn term_scipy 42%Z (tiny 21 0) (0%Z, 5))
    by (simpl; lia).
  vm_compute. reflexivity.
Defined.

(** ** What the passes keep *)

Section KeptCoefficient.
Context {A : Type}.

Lemma mapM_from_entries (f : nat -> result A) (idx : list nat) (l : list A) :
  length l = length idx ->
  (forall k i, nth_error idx k = Some i ->
               exists a, f i = Ok a /\ nth_error l k = Some a) ->
  mapM f idx = Ok l.
Proof.
  revert l. induction idx as [|i idx IH]; intros l Hlen H.
  - destruct l; [reflexivity|discriminate].
  - destruct l as [|a l]; [discriminate|]. simpl.
    destruct (H 0 i eq_refl) as [a' [Ha' Hn]].
    simpl in Hn. inversion Hn; subst a'. rewrite Ha'. simpl.
    rewrite (IH l); [reflexivity| |].
    + simpl in Hlen. lia.
    + intros k j Hk. apply (H (S k) j Hk).
Qed.

Lemma mapM_range_iff (f : nat -> result A) (n : Z) (l : list A) :
  mapM f (range n) = Ok l <->
  length l = Z.to_nat n /\
  forall j, j < Z.to_nat n -> exists a, f j = Ok a /\ nth_error l j = Some a.
Proof.
  unfold range. split.
  - intros H. split.
    + rewrite (mapM_length _ _ H). apply length_seq.
    + intros j Hj. apply (mapM_nth _ _ H j).
      rewrite nth_error_seq. apply Nat.ltb_lt in Hj. now rewrite Hj.
  - intros [Hlen H]. apply mapM_from_entries.
    + now rewrite length_seq.
    + intros k i Hk. rewrite nth_error_seq in Hk.
      destruct (Nat.ltb_spec k (Z.to_nat n)); [|discriminate].
      inversion Hk; subst i. now apply H.
Qed.

End KeptCoefficient.

Section KeptCoefficientOfFit.
Context {F : Type} {SK : Sklearn F}.

Lemma slope_of_iff (X : ndarray F) (y : list F) (c : F) :
  slope_of SK X y = Ok c <->
  exists m, fit LinearRegression_default X y = Ok m /\
            nth_error (coef_ m) 0 = Some c.
Proof.
  unfold slope_of, getitem. split.
  - intros H. destruct (fit LinearRegression_default X y) as [m|e];
      cbn [bind] in H; [|discriminate].
    exists m. split; [reflexivity|].
    destruct (nth_error (coef_ m) 0); [|discriminate]. now inversion H.
  - intros [m [Hm Hc]]. rewrite Hm. cbn [bind]. now rewrite Hc.
Qed.

Lemma asset_slope_iff (mkt data : ndarray F) (j : nat) (c : F) :
  asset_slope SK mkt data j = Ok c <->
  exists y m, get_col data j = Ok y /\
              fit LinearRegression_default mkt y = Ok m /\
              nth_error (coef_ m) 0 = Some c.
Proof.
  unfold asset_slope. split.
  - intros H. destruct (get_col data j) as [y|e]; cbn [bind] in H;
      [|discriminate].
    apply slope_of_iff in H. destruct H as [m [Hm Hc]].
    exists y, m. now repeat split.
  - intros [y [m [Hy [Hm Hc]]]]. rewrite Hy. cbn [bind].
    apply slope_of_iff. now exists m.
Qed.

Lemma period_slope_iff (b data : ndarray F) (i : nat) (c : F) :
  period_slope SK b data i = Ok c <->
  exists y m, get_row data i = Ok y /\
              fit LinearRegression_default b y = Ok m /\
              nth_error (coef_ m) 0 = Some c.
Proof.
  unfold period_slope. split.
  - intros H. destruct (get_row data i) as [y|e]; cbn [bind] in H;
      [|discriminate].
    apply slope_of_iff in H. destruct H as [m [Hm Hc]].
    exists y, m. now repeat split.
  - intros [y [m [Hy [Hm Hc]]]]. rewrite Hy. cbn [bind].
    apply slope_of_iff. now exists m.
Qed.

(** A pass returns a list exactly when that list has one entry per index
    and each entry is [coef_[0]] of the default fit on that index's
    column (row). *)
Lemma time_series_entries (N : Z) (mkt data : ndarray F) (b : list F) :
  time_series N mkt data = Ok b <->
  length b = Z.to_nat N /\
  forall j, j < Z.to_nat N ->
    exists y m c,
      get_col data j = Ok y /\
      fit LinearRegression_default mkt y = Ok m /\
      nth_error (coef_ m) 0 = Some c /\
      nth_error b j = Some c.
Proof.
  rewrite time_series_mapM, mapM_range_iff. split; intros [Hlen H];
    (split; [exact Hlen|]); intros j Hj.
  - destruct (H j Hj) as [c [Hc Hn]]. apply asset_slope_iff in Hc.
    destruct Hc as [y [m [Hy [Hm Hc]]]]. exists y, m, c. now repeat split.
  - destruct (H j Hj) as [y [m [c [Hy [Hm [Hc Hn]]]]]].
    exists c. split; [|exact Hn]. apply asset_slope_iff. now exists y, m.
Qed.

Lemma cross_section_entries (T : Z) (b : list F) (data : ndarray F)
      (res : list F) :
  cross_section T b data = Ok res <->
  length res = Z.to_nat T /\
  forall i, i < Z.to_nat T ->
    exists y m c,
      get_row data i = Ok y /\
      fit LinearRegression_default (reshape_column b) y = Ok m /\
      nth_error (coef_ m) 0 = Some c /\
      nth_error res i = Some c.
Proof.
  rewrite cross_section_mapM, mapM_range_iff. split; intros [Hlen H];
    (split; [exact Hlen|]); intros i Hi.
  - destruct (H i Hi) as [c [Hc Hn]]. apply period_slope_iff in Hc.
    destruct Hc as [y [m [Hy [Hm Hc]]]]. exists y, m, c. now repeat split.
  - destruct (H i Hi) as [y [m [c [Hy [Hm [Hc Hn]]]]]].
    exists c. split; [|exact Hn]. apply period_slope_iff. now exists y, m.
Qed.

End KeptCoefficientOfFit.

Section SanityAndIntercept.
Context {F : Type}.
Variables SK1 SK2 : Sklearn F.
Hypothesis Hsame : same_first_coefficient SK1 SK2.

(** The sanity check prints the intercept; its two betas and its
    exceptions do not depend on it. *)
Lemma sanity_check_same (m : market F) :
  match @sanity_check F SK1 m, @sanity_check F SK2 m with
  | Ok s1, Ok s2 =>
      estimated_beta s1 = estimated_beta s2 /\ true_beta s1 = true_beta s2
  | Raise e1, Raise e2 => e1 = e2
  | _, _ => False
  end.
Proof.
  unfold sanity_check.
  destruct (get_col (data m) 20) as [y|e]; cbn [bind]; [|reflexivity].
  specialize (Hsame (mkt m) y).
  destruct (@fit F SK1 LinearRegression_default (mkt m) y) as [m1|e1],
           (@fit F SK2 LinearRegression_default (mkt m) y) as [m2|e2];
    cbn [bind]; try contradiction; [|exact Hsame].
  unfold getitem. rewrite Hsame.
  destruct (nth_error (coef_ m2) 0) as [c|]; cbn [bind]; [|reflexivity].
  destruct (get_row (beta_true m) 20) as [row|e]; cbn [bind]; [|reflexivity].
  destruct (nth_error row 0) as [tb|]; cbn [bind]; [|reflexivity].
  simpl. now split.
Qed.

End SanityAndIntercept.

Section InterceptClaim.
Context {F G : Type} {FO : Float64 F} {RS : RandomState F G} {SP : Scipy F}.

(** C10. Every regression of the two passes is run with the default
    estimator, which fits an intercept, and what a pass keeps of each fit
    is [coef_[0]]: a pass returns a list exactly when the list has one
    entry per asset (period) and entry [j] is the first coefficient of the
    default fit on column (row) [j]. The intercept is not kept: two
    solvers that return the same first coefficient for the default
    estimator (and raise alike) give the same output in the first pass and
    in the second, and the two runs of the notebook raise alike or finish
    with the same market, betas, premia, summary and generator state,
    whatever intercepts the solvers report and whatever they would do
    without intercept. (The sanity check prints the intercept of its own
    regression; its two betas agree as well.) *)
Theorem intercept_never_used (SK1 SK2 : Sklearn F) :
  fit_intercept LinearRegression_default = true /\
  (forall N mkt data b,
      @time_series F SK1 N mkt data = Ok b <->
      length b = Z.to_nat N /\
      forall j, j < Z.to_nat N ->
        exists y m c,
          get_col data j = Ok y /\
          @fit F SK1 LinearRegression_default mkt y = Ok m /\
          nth_error (coef_ m) 0 = Some c /\
          nth_error b j = Some c) /\
  (forall T b data res,
      @cross_section F SK1 T b data = Ok res <->
      length res = Z.to_nat T /\
      forall i, i < Z.to_nat T ->
        exists y m c,
          get_row data i = Ok y /\
          @fit F SK1 LinearRegression_default (reshape_column b) y = Ok m /\
          nth_error (coef_ m) 0 = Some c /\
          nth_error res i = Some c) /\
  (same_first_coefficient SK1 SK2 ->
   (forall N mkt data,
       @time_series F SK1 N mkt data = @time_series F SK2 N mkt data) /\
   (forall T b data,
       @cross_section F SK1 T b data = @cross_section F SK2 T b data) /\
   (forall seed p g,
       match @fama_macbeth F G FO RS SK1 SP seed p g,
             @fama_macbeth F G FO RS SK2 SP seed p g with
       | (Ok o1, g1), (Ok o2, g2) =>
           out_market o1 = out_market o2 /\
           out_b o1 = out_b o2 /\
           out_res o1 = out_res o2 /\
           out_summary o1 = out_summary o2 /\
           estimated_beta (out_sanity o1) = estimated_beta (out_sanity o2) /\
           true_beta (out_sanity o1) = true_beta (out_sanity o2) /\
           g1 = g2
       | (Raise e1, g1), (Raise e2, g2) => e1 = e2 /\ g1 = g2
       | _, _ => False
       end)).
Proof.
  split; [reflexivity|]. split; [|split].
  - intros. apply time_series_entries.
  - intros. apply cross_section_entries.
  - intros Hsame. split; [|split].
    + intros. now apply time_series_same.
    + intros. now apply cross_section_same.
    + intros seed p g. unfold fama_macbeth, bindM, lift, ret.
      destruct (run_simulator seed p g) as [[m|x] g1]; [|now split].
      pose proof (sanity_check_same Hsame m) as Hsc.
      destruct (@sanity_check F SK1 m) as [s1|e1],
               (@sanity_check F SK2 m) as [s2|e2];
        try contradiction; [|now split].
      rewrite (time_series_same Hsame).
      destruct (@time_series F SK2 (N p) (mkt m) (data m)) as [b|x];
        [|now split].
      rewrite (cross_section_same Hsame).
      destruct (@cross_section F SK2 (T p) b (data m)) as [res|x];
        [|now split].
      destruct (summary (T p) res) as [st|x]; [|now split].
      simpl. destruct Hsc. now repeat split.
Qed.

End InterceptClaim.

Lemma intercept_never_used_on_terms :
  (forall N mkt data,
      @time_series term term_sklearn N mkt data
      = @time_series term term_sklearn' N mkt data) /\
  (forall T b data,
      @cross_section term term_sklearn T b data
      = @cross_section term term_sklearn' T b data) /\
  (forall seed p g,
      match @fama_macbeth term _ term_float term_random term_sklearn
                          term_scipy seed p g,
            @fama_macbeth term _ term_float term_random term_sklearn'
                          term_scipy seed p g with
      | (Ok o1, g1), (Ok o2, g2) =>
          out_market o1 = out_market o2 /\
          out_b o1 = out_b o2 /\
          out_res o1 = out_res o2 /\
          out_summary o1 = out_summary o2 /\
          estimated_beta (out_sanity o1) = estimated_beta (out_sanity o2) /\
          true_beta (out_sanity o1) = true_beta (out_sanity o2) /\
          g1 = g2
      | (Raise e1, g1), (Raise e2, g2) => e1 = e2 /\ g1 = g2
      | _, _ => False
      end).
Proof.
  apply (proj2 (proj2 (proj2
           (@intercept_never_used term _ term_float term_random term_scipy
              term_sklearn term_sklearn')))).
  exact intercepts_differ_slopes_agree.
Defined.

Lemma estimates_stay_fixed_on_terms :
  let b := [Lit (1 # 2); Lit (3 # 2)] in
  (exists e,
      for_each (@ts_body term term_sklearn) (seq 0 1)
               (ts_start two_factors two_by_two) = Ok e /\
      ts_mkt e = two_factors /\ ts_data e = two_by_two)
  /\
  (exists e,
      for_each (@cs_body term term_sklearn) (seq 0 1)
               (cs_start b two_by_two) = Ok e /\
      cs_b e = reshape_column b /\
      column_values (rows (cs_b e)) 0 = b /\
      cs_data e = two_by_two)
  /\
  (exists o g',
      @fama_macbeth term _ term_float term_random term_sklearn term_scipy
                    42 (tiny 21 2) (0%Z, 5) = (Ok o, g') /\
      @run_simulator term _ term_float term_random 42 (tiny 21 2) (0%Z, 5)
      = (Ok (out_market o), g')).
Proof.
  intros b. split; [|split].
  - eexists. split; [reflexivity|].
    apply (proj1 (@estimates_stay_fixed term _ term_float term_random
                    term_sklearn term_scipy)
             two_factors two_by_two 1).
    reflexivity.
  - eexists. split; [reflexivity|].
    destruct (proj1 (proj2 (@estimates_stay_fixed term _ term_float
                              term_random term_sklearn term_scipy))
                b two_by_two 1 _ eq_refl) as [H1 [H2 [H3 _]]].
    repeat split; assumption.
  - destruct (@notebook_returns term _ term_float term_random term_sklearn
                term_scipy 42%Z (tiny 21 2) (0%Z, 5) closed_form_accepts)
      as [o [Ho _]]; [simpl; lia|simpl; lia|].
    exists o. eexists. split; [exact Ho|].
    apply (proj2 (proj2 (@estimates_stay_fixed term _ term_float
                           term_random term_sklearn term_scipy))
             42%Z (tiny 21 2) (0%Z, 5)).
    exact Ho.
Defined.

Lemma notebook_regressions_on_terms :
  let p := tiny 21 2 in
  let g0 := (42%Z, 0) in
  exists o g',
    @fama_macbeth term _ term_float term_random term_sklearn term_scipy
                  42 p (0%Z, 5) = (Ok o, g') /\
    (forall j, j < 21 ->
       exists c,
         nth_error (out_b o) j = Some c /\
         slope_of term_sklearn
           {| nrows := 2; ncols := 1;
              rows := map (fun i =>
                             [@factor term _ term_float term_random p g0 21 i])
                          (seq 0 2) |}
           (map (fun i => @panel_cell term _ term_float term_random
                            p g0 21 2 i j) (seq 0 2)) = Ok c)
    /\
    (forall i, i < 2 ->
       exists c,
         nth_error (out_res o) i = Some c /\
         slope_of term_sklearn (reshape_column (out_b o))
                  (map (@panel_cell term _ term_float term_random
                          p g0 21 2 i) (seq 0 21)) = Ok c).
Proof.
  intros p g0.
  destruct (@notebook_returns term _ term_float term_random term_sklearn
              term_scipy 42%Z p (0%Z, 5) closed_form_accepts)
    as [o [Ho _]]; [simpl; lia|simpl; lia|].
  exists o. eexists. split; [exact Ho|].
  apply (@notebook_regressions term _ term_float term_random term_sklearn
           term_scipy 42%Z p (0%Z, 5) _ o Ho).
Defined.
